(** * Auto insurance claim processor: the claim pipeline of [workflow.py]

    A shallow embedding of [parse_claim], the rule-based fallbacks and the
    six workflow steps of [AutoInsuranceWorkflow], with the properties the
    specification states about them.

    Modelling choices:
    - Python [float] is the kernel's binary64 [float]; comparisons and
      subtraction are the IEEE ones ([nan] compares false with everything).
    - Python [str] is the [string] of its UTF-8 bytes: [len] counts the
      characters, not the bytes; [lower] maps [A-Z] to [a-z] and leaves
      every other byte alone, which is [str.lower()] on ASCII text only,
      so what depends on the lower-cased loss description is stated for
      ASCII descriptions.
    - A step that raises makes the run raise the workflow's
      [WorkflowRuntimeError], with the exception of the step as its cause.
    - The dictionary that [json.load] returns and the workflow [Context]
      are [gmap]s keyed by strings; the [combined_docs] dictionary, whose
      iteration order the code relies on, is an association list kept in
      insertion order.
    - The retriever and the language model are external: each call takes
      the state of the outside world and gives back a response (a value or
      a raised exception) and the next state of the world.
    - The log stream, the context store and the outside world are threaded
      through the steps by a state-and-exception monad. *)

From Stdlib Require Import Floats.PrimFloat Floats.SpecFloat Floats.FloatOps
  Floats.FloatAxioms.
From Stdlib Require Import ZArith Ascii String.
From stdpp Require Import gmap strings list pretty.

#[local] Set Warnings "-register-all".

(** ** Strings *)

(** A Python [str] is held as the string of its UTF-8 bytes. *)

(** [str.lower()] on ASCII text: the letters [A] to [Z] are replaced,
    every other byte is kept. Python also replaces the capital letters
    outside ASCII, which this function leaves as they are; what is proved
    of the lower-cased loss description is stated for ASCII text. *)
Definition lower_ascii (c : ascii) : ascii :=
  let n := nat_of_ascii c in
  if (65 <=? n)%nat && (n <=? 90)%nat then ascii_of_nat (n + 32) else c.

Fixpoint lower (s : string) : string :=
  match s with
  | EmptyString => EmptyString
  | String c s' => String (lower_ascii c) (lower s')
  end.

(** The text has ASCII characters only. *)
Fixpoint ascii_only (s : string) : bool :=
  match s with
  | EmptyString => true
  | String c s' => (nat_of_ascii c <? 128)%nat && ascii_only s'
  end.

(** [len(s)], the number of characters: in UTF-8 every byte starts a
    character but the continuation bytes, which are those from 128 to
    191. *)
Definition starts_character (c : ascii) : bool :=
  negb ((128 <=? nat_of_ascii c)%nat && (nat_of_ascii c <=? 191)%nat).

Fixpoint len (s : string) : nat :=
  match s with
  | EmptyString => 0
  | String c s' => (if starts_character c then 1 else 0) + len s'
  end.

(** [needle in hay] for two strings: [needle] occurs as a substring. *)
Fixpoint contains (needle hay : string) : bool :=
  String.prefix needle hay ||
  match hay with
  | EmptyString => false
  | String _ hay' => contains needle hay'
  end.

(** [sep.join(parts)]. *)
Fixpoint str_join (sep : string) (parts : list string) : string :=
  match parts with
  | [] => ""
  | [p] => p
  | p :: rest => p +:+ sep +:+ str_join sep rest
  end.

Definition newline : string := String (ascii_of_nat 10) EmptyString.

(** ** Floats *)

(** The integer nearest to [num * 2^e], ties going to the even one. *)
Definition round_half_even (num e : Z) : Z :=
  if (0 <=? e)%Z then (num * 2 ^ e)%Z
  else
    let d := (2 ^ (- e))%Z in
    let q := (num / d)%Z in
    let r := (num mod d)%Z in
    if (2 * r <? d)%Z then q
    else if (d <? 2 * r)%Z then (q + 1)%Z
    else if Z.even q then q else (q + 1)%Z.

Definition sign_str (negative : bool) : string :=
  if negative then "-" else "".

Definition two_digits (n : Z) : string :=
  if (n <? 10)%Z then "0" +:+ pretty n else pretty n.

(** [f"{x:.2f}"]: the decimal expansion of [x] correctly rounded to two
    places. *)
Definition format_2f (x : float) : string :=
  match Prim2SF x with
  | S754_nan => "nan"
  | S754_infinity s => sign_str s +:+ "inf"
  | S754_zero s => sign_str s +:+ "0.00"
  | S754_finite s m e =>
      let n := round_half_even (Z.pos m * 100) e in
      sign_str s +:+ pretty (n / 100)%Z +:+ "." +:+ two_digits (n mod 100)%Z
  end.

(** [max(0, x)]: Python keeps the first argument unless a later one is
    strictly greater, so a [nan] or a non-positive [x] gives [0]. *)
Definition max0 (x : float) : float :=
  if PrimFloat.ltb 0 x then x else 0%float.

(** Truth value of a float in a condition: false exactly for [0.0] and
    [-0.0]. *)
Definition truthy (x : float) : bool := negb (PrimFloat.eqb x 0).

(** ** Schemas *)

Record ClaimInfo := {
  claim_number : string;
  policy_number : string;
  claimant_name : string;
  date_of_loss : string;
  loss_description : string;
  estimated_repair_cost : float;
  vehicle_details : option string;
}.

Record PolicyQueries := { queries : list string }.

Record PolicyRecommendation := {
  policy_section : string;
  recommendation_summary : string;
  deductible : option float;
  settlement_amount : option float;
}.

(** [ClaimDecision] shares two field names with the records above, so its
    projections live in a module of their own. *)
Module ClaimDecision.
Record t := {
  claim_number : string;
  covered : bool;
  deductible : float;
  recommended_payout : float;
  notes : option string;
}.
End ClaimDecision.

(** ** JSON values and the file system *)

(** What [json.load] returns. A number is taken with its float value: an
    integer literal and the float it converts to are the same input for
    every field of [ClaimInfo]. *)
Inductive json :=
  | JNull
  | JBool (b : bool)
  | JNum (f : float)
  | JStr (s : string)
  | JArr (items : list json)
  | JObj (members : gmap string json).

(** What [open] and [json.load] make of a path. *)
Inductive file :=
  | Unreadable (msg : string)   (* any exception but a missing file: no
                                    permission, a directory, not JSON *)
  | Holds (data : json).

(** A path without an entry does not exist. *)
Abbreviation filesystem := (gmap string file).

(** ** Library functions taken as given

    Pydantic's reading of a string as a float (lax mode) and its JSON
    serialisation of the three models are not part of the repository. *)
Record PyLib := {
  float_of_str : string -> option float;
  claim_dump_json : ClaimInfo -> string;
  recommendation_dump_json : PolicyRecommendation -> string;
  decision_dump_json : ClaimDecision.t -> string;
}.

(** ** Validation: [ClaimInfo.model_validate] *)

(** Pydantic's error types for the fields of [ClaimInfo]. *)
Inductive error_type := missing | string_type | float_type | float_parsing.

#[global] Instance error_type_eq_dec : EqDecision error_type.
Proof. solve_decision. Defined.

(** A field of type [str]: only a string passes. *)
Definition validate_str (v : option json) : string + error_type :=
  match v with
  | None => inr missing
  | Some (JStr s) => inl s
  | Some _ => inr string_type
  end.

(** A field of type [float] in lax mode: a number passes as it is, a
    boolean as [1.0] or [0.0], a string when it reads as a number. (An
    integer literal too large for a float, which the code rejects, is not
    among the numbers of [json].) *)
Definition validate_float (py : PyLib) (v : option json) : float + error_type :=
  match v with
  | None => inr missing
  | Some (JNum f) => inl f
  | Some (JBool b) => inl (if b then 1%float else 0%float)
  | Some (JStr s) =>
      match float_of_str py s with
      | Some f => inl f
      | None => inr float_parsing
      end
  | Some _ => inr float_type
  end.

(** A field of type [Optional[str]] with default [None]. *)
Definition validate_optional_str (v : option json) : option string + error_type :=
  match v with
  | None => inl None
  | Some JNull => inl None
  | Some (JStr s) => inl (Some s)
  | Some _ => inr string_type
  end.

(** The error entry of a field, if it has one: its location and type. *)
Definition field_error {A} (loc : string) (r : A + error_type)
  : list (string * error_type) :=
  match r with
  | inl _ => []
  | inr e => [(loc, e)]
  end.

(** Every field is validated, in declaration order; the errors of all of
    them are reported together. Keys that are not fields are ignored. *)
Definition model_validate (py : PyLib) (data : gmap string json)
  : ClaimInfo + list (string * error_type) :=
  let r1 := validate_str (data !! "claim_number") in
  let r2 := validate_str (data !! "policy_number") in
  let r3 := validate_str (data !! "claimant_name") in
  let r4 := validate_str (data !! "date_of_loss") in
  let r5 := validate_str (data !! "loss_description") in
  let r6 := validate_float py (data !! "estimated_repair_cost") in
  let r7 := validate_optional_str (data !! "vehicle_details") in
  match r1, r2, r3, r4, r5, r6, r7 with
  | inl cn, inl pn, inl name, inl date, inl descr, inl cost, inl vehicle =>
      inl {| claim_number := cn; policy_number := pn; claimant_name := name;
             date_of_loss := date; loss_description := descr;
             estimated_repair_cost := cost; vehicle_details := vehicle |}
  | _, _, _, _, _, _, _ =>
      inr (field_error "claim_number" r1 ++ field_error "policy_number" r2 ++
           field_error "claimant_name" r3 ++ field_error "date_of_loss" r4 ++
           field_error "loss_description" r5 ++
           field_error "estimated_repair_cost" r6 ++
           field_error "vehicle_details" r7)
  end.

(** ** Exceptions *)

(** Why [parse_claim] raised its [ValueError]: the exception it caught. *)
Inductive parse_cause :=
  | ReadError (msg : string)
  | NotAMapping
  | ValidationError (errors : list (string * error_type)).

(** The exceptions of a run. [WorkflowRuntimeError] is what the
    [Workflow] class raises from the exception of a step, which it keeps
    as the cause. *)
Inductive exn :=
  | FileNotFoundError (path : string)
  | ValueError (path : string) (cause : parse_cause)
  | KeyError (key : string)
  | WorkflowRuntimeError (cause : exn).

Inductive outcome (A : Type) :=
  | Ok (a : A)
  | Raise (e : exn).
Arguments Ok {A} a.
Arguments Raise {A} e.

(** ** [parse_claim] *)

(** [if legacy in data: data[canonical] = data.pop(legacy)] *)
Definition rename_key (legacy canonical : string) (data : gmap string json)
  : gmap string json :=
  match data !! legacy with
  | Some v => <[canonical := v]> (delete legacy data)
  | None => data
  end.

Definition rename_table : list (string * string) :=
  [("damage_amount", "estimated_repair_cost");
   ("policyholder_name", "claimant_name");
   ("date_of_incident", "date_of_loss");
   ("description", "loss_description")].

(** The four renamings, in the order the code applies them. *)
Definition rename_legacy (data : gmap string json) : gmap string json :=
  foldl (fun d '(legacy, canonical) => rename_key legacy canonical d)
        data rename_table.

(** A value that is not a dictionary never gets through: the membership
    tests or [pop] raise on it, or else [model_validate] rejects it; the
    [except Exception] clause turns each of these into the [ValueError]. *)
Definition parse_claim (py : PyLib) (fs : filesystem) (file_path : string)
  : outcome ClaimInfo :=
  match fs !! file_path with
  | None => Raise (FileNotFoundError file_path)
  | Some (Unreadable msg) => Raise (ValueError file_path (ReadError msg))
  | Some (Holds (JObj data)) =>
      match model_validate py (rename_legacy data) with
      | inl claim_info => Ok claim_info
      | inr errors => Raise (ValueError file_path (ValidationError errors))
      end
  | Some (Holds _) => Raise (ValueError file_path NotAMapping)
  end.

(** ** The external capabilities *)

(** What a call to the retriever or the language model comes back with. *)
Inductive response (A : Type) :=
  | Returns (a : A)
  | Throws (msg : string).   (* [str(e)] of the exception raised *)
Arguments Returns {A} a.
Arguments Throws {A} msg.

(** A retrieved node: its identifier and the text [get_content()] gives. *)
Record NodeWithScore := { id_ : string; get_content : string }.

Abbreviation MetadataFilters := (list (string * string)).

(** A retriever over the outside world [W]. A method the object lacks
    ([hasattr] is false) is [None]. *)
Record BaseRetriever (W : Type) := {
  aretrieve : option (string -> W -> response (list NodeWithScore) * W);
  retrieve :
    option (string -> option MetadataFilters ->
            W -> response (list NodeWithScore) * W);
}.
Arguments aretrieve {W} _.
Arguments retrieve {W} _.

(** [astructured_predict], once for each schema the workflow asks for:
    the prompt template, then the variables it is filled with. *)
Record LLM (W : Type) := {
  astructured_predict_queries :
    string -> string -> W -> response PolicyQueries * W;
  astructured_predict_recommendation :
    string -> string -> string -> W -> response PolicyRecommendation * W;
}.
Arguments astructured_predict_queries {W} _.
Arguments astructured_predict_recommendation {W} _.

Definition GENERATE_POLICY_QUERIES_PROMPT : string :=
"You are an assistant tasked with determining what insurance policy sections to consult for a given auto claim.

**Instructions:**
1. Review the claim data, including the type of loss, estimated repair cost, and policy number.
2. Identify what aspects of the policy we need:
   - Coverage conditions for the type of damage
   - Deductible application
   - Any special endorsements related to the incident
   - Exclusions that might apply
3. Produce 3-5 queries that can be used against a vector index of insurance policies to find relevant clauses.

Claim Data:
{claim_info}

Return a JSON object matching the PolicyQueries schema.
".

Definition POLICY_RECOMMENDATION_PROMPT : string :=
"Given the retrieved policy sections for this claim, determine:
- If the incident is covered under the policy
- The applicable deductible amount
- Recommended settlement amount (repair cost minus deductible if covered)
- Which specific policy section applies
- Any exclusions or special conditions

Claim Info:
{claim_info}

Policy Text:
{policy_text}

Return a JSON object matching PolicyRecommendation schema.
".

(** ** The workflow object *)

Record AutoInsuranceWorkflow (W : Type) := {
  policy_retriever : option (BaseRetriever W);
  llm : option (LLM W);
  _verbose : bool;
}.
Arguments policy_retriever {W} _.
Arguments llm {W} _.
Arguments _verbose {W} _.

(** [__init__]: without an [llm] argument the model is the OpenAI one when
    the environment has an API key and the client can be built
    ([openai_env]), and none otherwise. *)
Definition init {W} (policy_retriever : option (BaseRetriever W))
    (llm : option (LLM W)) (verbose : bool) (openai_env : option (LLM W))
  : AutoInsuranceWorkflow W :=
  {| policy_retriever := policy_retriever;
     llm := match llm with Some l => Some l | None => openai_env end;
     _verbose := verbose |}.

(** ** Run state *)

Record LogEvent := { msg : string; delta : bool }.

(** What the steps keep in the workflow [Context]. *)
Inductive ctx_value :=
  | CtxClaim (claim_info : ClaimInfo)
  | CtxText (text : string).

Record RunState (W : Type) := {
  stream : list LogEvent;            (* events written to the stream *)
  store : gmap string ctx_value;     (* the Context's key-value store *)
  world : W;                         (* the retriever and the model *)
}.
Arguments stream {W} _.
Arguments store {W} _.
Arguments world {W} _.

(** ** The dictionary [combined_docs]

    A Python [dict] iterates in insertion order, and assigning to a key it
    already has replaces the value where the key stands. *)
Fixpoint dict_set {V} (k : string) (v : V) (d : list (string * V))
  : list (string * V) :=
  match d with
  | [] => [(k, v)]
  | (k', v') :: d' =>
      if decide (k = k') then (k, v) :: d' else (k', v') :: dict_set k v d'
  end.

(** [for d in docs: combined_docs[d.id_] = d] *)
Definition add_docs (combined_docs : list (string * NodeWithScore))
    (docs : list NodeWithScore) : list (string * NodeWithScore) :=
  foldl (fun acc d => dict_set (id_ d) d acc) combined_docs docs.

(** ** The rule-based fallbacks *)

Definition _generate_fallback_queries (claim_info : ClaimInfo) : PolicyQueries :=
  {| queries :=
       [ "Coverage conditions for " +:+ policy_number claim_info;
         "Deductible application for collision damage";
         "Settlement amount calculation for vehicle damage";
         "Exclusions for " +:+ lower (loss_description claim_info);
         "Policy limits and coverage details" ] |}.

Definition _get_fallback_policy_text (claim_info : ClaimInfo) : string :=
  "
CALIFORNIA PERSONAL AUTO POLICY
Policy Number: " +:+ policy_number claim_info +:+ "

PART D - COVERAGE FOR DAMAGE TO YOUR AUTO
COLLISION COVERAGE
We will pay for direct and accidental loss to your covered auto caused by collision with another object or by upset of your covered auto.

DEDUCTIBLE
For each loss, our limit of liability will be reduced by the applicable deductible amount shown in the Declarations.
Standard collision deductible: $500
Comprehensive deductible: $250

LIMITS OF LIABILITY
Our limit of liability for loss will be the lesser of:
1. The actual cash value of the stolen or damaged property; or
2. The amount necessary to repair or replace the property.

EXCLUSIONS
We do not provide coverage for:
1. Loss to your covered auto which occurs while it is used to carry persons or property for compensation
2. Loss due to wear and tear, freezing, mechanical breakdown
3. Loss to equipment designed for the reproduction of sound
        ".

(** The local variable [covered] of the fallback recommendation. *)
Definition fallback_covered (claim_info : ClaimInfo) : bool :=
  PrimFloat.ltb (estimated_repair_cost claim_info) 15000.

Definition fallback_deductible : float := 500%float.

(** The local variable [settlement_amount]; the integer [0] that [max]
    may return becomes [0.0] when the model is built. *)
Definition fallback_settlement (claim_info : ClaimInfo) : float :=
  if fallback_covered claim_info
  then max0 (estimated_repair_cost claim_info - fallback_deductible)
  else 0%float.

Definition fallback_summary (claim_info : ClaimInfo) : string :=
  let summary :=
    "Claim " +:+ claim_number claim_info +:+ " for $" +:+
    format_2f (estimated_repair_cost claim_info) +:+ " damage" in
  if fallback_covered claim_info
  then summary +:+ " is covered. Settlement: $" +:+
       format_2f (fallback_settlement claim_info) +:+ " after $" +:+
       format_2f fallback_deductible +:+ " deductible."
  else summary +:+ " exceeds policy limits and is not covered.".

Definition _generate_fallback_recommendation (claim_info : ClaimInfo)
    (policy_text : string) : PolicyRecommendation :=
  {| policy_section := "PART D - COLLISION COVERAGE";
     recommendation_summary := fallback_summary claim_info;
     deductible := Some fallback_deductible;
     settlement_amount := Some (fallback_settlement claim_info) |}.

(** ** The decision rule of [finalize_decision] *)

Definition decide_covered (rec : PolicyRecommendation) : bool :=
  (contains "covered" (lower (recommendation_summary rec)) &&
   negb (contains "not covered" (lower (recommendation_summary rec)))) ||
  match settlement_amount rec with
  | Some amount => PrimFloat.ltb 0 amount
  | None => false
  end.

Definition make_decision (claim_info : ClaimInfo) (rec : PolicyRecommendation)
  : ClaimDecision.t :=
  {| ClaimDecision.claim_number := claim_number claim_info;
     ClaimDecision.covered := decide_covered rec;
     ClaimDecision.deductible :=
       match deductible rec with Some d => d | None => 0%float end;
     ClaimDecision.recommended_payout :=
       match settlement_amount rec with
       | Some amount => if truthy amount then amount else 0%float
       | None => 0%float
       end;
     ClaimDecision.notes := Some (recommendation_summary rec) |}.

(** ** The monad of the steps

    A step reads and writes the run state and may raise; what it wrote
    before raising stays written. *)
Definition M (W A : Type) : Type := RunState W -> outcome A * RunState W.

#[global] Instance M_ret {W} : MRet (M W) := fun A a st => (Ok a, st).

#[global] Instance M_bind {W} : MBind (M W) := fun A B k m st =>
  match m st with
  | (Ok a, st') => k a st'
  | (Raise e, st') => (Raise e, st')
  end.

Section Steps.
Context {W : Type}.
Variable py : PyLib.

(** An outcome computed without touching the state. *)
Definition lift {A} (o : outcome A) : M W A := fun st => (o, st).

(** [ctx.write_event_to_stream(ev)] *)
Definition write_event_to_stream (ev : LogEvent) : M W unit := fun st =>
  (Ok tt, {| stream := stream st ++ [ev]; store := store st; world := world st |}).

(** [await ctx.set(key, value)] *)
Definition ctx_set (key : string) (value : ctx_value) : M W unit := fun st =>
  (Ok tt, {| stream := stream st; store := <[key := value]> (store st);
             world := world st |}).

(** [await ctx.get("claim_info")], as the steps use it: the claim stored
    under the key. A key that was never set, or that holds something else,
    raises. *)
Definition ctx_get_claim (key : string) : M W ClaimInfo := fun st =>
  match store st !! key with
  | Some (CtxClaim claim_info) => (Ok claim_info, st)
  | _ => (Raise (KeyError key), st)
  end.

(** A call out of the workflow: it moves the outside world on. *)
Definition call {A} (f : W -> A * W) : M W A := fun st =>
  let '(a, w) := f (world st) in
  (Ok a, {| stream := stream st; store := store st; world := w |}).

(** [if self._verbose: ctx.write_event_to_stream(LogEvent(msg=...))] *)
Definition trace (wf : AutoInsuranceWorkflow W) (message : string) : M W unit :=
  if _verbose wf
  then write_event_to_stream {| msg := message; delta := false |}
  else mret tt.

(** *** Step 1 *)

Definition load_claim_info (wf : AutoInsuranceWorkflow W) (fs : filesystem)
    (claim_json_path : string) : M W ClaimInfo :=
  trace wf ">> Loading Claim Info";;
  claim_info ← lift (parse_claim py fs claim_json_path);
  ctx_set "claim_info" (CtxClaim claim_info);;
  trace wf (">> Loaded claim: " +:+ claim_number claim_info);;
  mret claim_info.

(** *** Step 2 *)

Definition generate_policy_queries (wf : AutoInsuranceWorkflow W)
    (claim_info : ClaimInfo) : M W PolicyQueries :=
  trace wf ">> Generating Policy Queries";;
  qs ← match llm wf with
       | Some model =>
           r ← call (astructured_predict_queries model
                       GENERATE_POLICY_QUERIES_PROMPT
                       (claim_dump_json py claim_info));
           match r with
           | Returns qs => mret qs
           | Throws e =>
               trace wf (">> LLM query generation failed, using fallback: " +:+ e);;
               mret (_generate_fallback_queries claim_info)
           end
       | None => mret (_generate_fallback_queries claim_info)
       end;
  trace wf (">> Generated " +:+ pretty (length (queries qs)) +:+ " queries");;
  mret qs.

(** *** Step 3 *)

(** [aretrieve] when the retriever has it, [retrieve] otherwise; with
    neither, the attribute lookup raises (an [AttributeError] whose text
    also names the class of the object, which is left out here; a
    [BaseRetriever] has both methods). *)
Definition fetch (r : BaseRetriever W) (query : string)
  : W -> response (list NodeWithScore) * W :=
  match aretrieve r with
  | Some f => f query
  | None =>
      match retrieve r with
      | Some g => g query None
      | None => fun w => (Throws "object has no attribute 'retrieve'", w)
      end
  end.

(** [get_declarations_docs]: at most [top_k] nodes, and none when the
    retriever has no [retrieve] or the call raises (the warning it then
    prints goes to the console, which is not modelled). [top_k] is a
    count, as in the one call of the workflow, which leaves it at 1; a
    negative [top_k], with which the slice drops nodes from the end, is
    outside the model. *)
Definition get_declarations_docs (r : BaseRetriever W) (policy_number : string)
    (top_k : nat) : W -> list NodeWithScore * W :=
  match retrieve r with
  | Some g => fun w =>
      match g ("declarations page for " +:+ policy_number)
              (Some [("policy_number", policy_number)]) w with
      | (Returns docs, w') => (take top_k docs, w')
      | (Throws _, w') => ([], w')
      end
  | None => fun w => ([], w)
  end.

(** The loop over the queries. It ends with the dictionary as it stands
    and, when a call raised, the exception: what was merged before stays. *)
Fixpoint query_loop (wf : AutoInsuranceWorkflow W) (r : BaseRetriever W)
    (qs : list string) (combined_docs : list (string * NodeWithScore))
  : M W (list (string * NodeWithScore) * option string) :=
  match qs with
  | [] => mret (combined_docs, None)
  | query :: qs' =>
      trace wf (">> Query: " +:+ query);;
      docs ← call (fetch r query);
      match docs with
      | Returns docs => query_loop wf r qs' (add_docs combined_docs docs)
      | Throws e => mret (combined_docs, Some e)
      end
  end.

(** The body of the [try] block and its [except] clause. *)
Definition collect_docs (wf : AutoInsuranceWorkflow W) (r : BaseRetriever W)
    (qs : list string) (claim_info : ClaimInfo)
  : M W (list (string * NodeWithScore)) :=
  '(combined_docs, failure) ← query_loop wf r qs [];
  match failure with
  | None =>
      declarations_docs ← call (get_declarations_docs r (policy_number claim_info) 1);
      mret (add_docs combined_docs declarations_docs)
  | Some e =>
      trace wf (">> Policy retrieval failed: " +:+ e);;
      mret combined_docs
  end.

(** The text made of the merged nodes, or the built-in policy text when
    there is none. *)
Definition evidence_text (combined_docs : list (string * NodeWithScore))
    (claim_info : ClaimInfo) : string :=
  match combined_docs with
  | [] => _get_fallback_policy_text claim_info
  | _ => str_join (newline +:+ newline) (map (fun kv => get_content (snd kv)) combined_docs)
  end.

Definition retrieve_policy_text (wf : AutoInsuranceWorkflow W)
    (qs : PolicyQueries) : M W string :=
  trace wf ">> Retrieving policy sections";;
  claim_info ← ctx_get_claim "claim_info";
  combined_docs ← match policy_retriever wf with
                  | Some r => collect_docs wf r (queries qs) claim_info
                  | None => mret []
                  end;
  let policy_text := evidence_text combined_docs claim_info in
  ctx_set "policy_text" (CtxText policy_text);;
  trace wf (">> Retrieved " +:+ pretty (len policy_text) +:+
            " characters of policy text");;
  mret policy_text.

(** *** Step 4 *)

Definition generate_recommendation (wf : AutoInsuranceWorkflow W)
    (policy_text : string) : M W PolicyRecommendation :=
  trace wf ">> Generating Policy Recommendation";;
  claim_info ← ctx_get_claim "claim_info";
  recommendation ←
    match llm wf with
    | Some model =>
        r ← call (astructured_predict_recommendation model
                    POLICY_RECOMMENDATION_PROMPT
                    (claim_dump_json py claim_info) policy_text);
        match r with
        | Returns recommendation => mret recommendation
        | Throws e =>
            trace wf (">> LLM recommendation failed, using fallback: " +:+ e);;
            mret (_generate_fallback_recommendation claim_info policy_text)
        end
    | None => mret (_generate_fallback_recommendation claim_info policy_text)
    end;
  trace wf (">> Recommendation: " +:+ recommendation_dump_json py recommendation);;
  mret recommendation.

(** *** Step 5 *)

Definition finalize_decision (wf : AutoInsuranceWorkflow W)
    (rec : PolicyRecommendation) : M W ClaimDecision.t :=
  trace wf ">> Finalizing Decision";;
  claim_info ← ctx_get_claim "claim_info";
  let decision := make_decision claim_info rec in
  trace wf (">> Final Decision: Covered=" +:+
            (if ClaimDecision.covered decision then "True" else "False") +:+
            ", Payout=$" +:+ format_2f (ClaimDecision.recommended_payout decision));;
  mret decision.

(** *** Step 6 *)

Definition output_result (wf : AutoInsuranceWorkflow W)
    (decision : ClaimDecision.t) : M W ClaimDecision.t :=
  trace wf (">> Decision: " +:+ decision_dump_json py decision);;
  mret decision.

(** *** The run

    The workflow hands each step's event to the step that takes it, which
    chains the six steps; [run] gives the decision under the key
    ["decision"] of its result. *)
Definition steps (wf : AutoInsuranceWorkflow W) (fs : filesystem)
    (claim_json_path : string) : M W ClaimDecision.t :=
  claim_info ← load_claim_info wf fs claim_json_path;
  qs ← generate_policy_queries wf claim_info;
  policy_text ← retrieve_policy_text wf qs;
  recommendation ← generate_recommendation wf policy_text;
  decision ← finalize_decision wf recommendation;
  output_result wf decision.

(** A run starts with an empty stream and an empty context. When a step
    raises, the workflow raises its [WorkflowRuntimeError] from the
    exception of the step, and [run] raises that again. *)
Definition run (wf : AutoInsuranceWorkflow W) (fs : filesystem)
    (claim_json_path : string) (w : W) : outcome ClaimDecision.t * RunState W :=
  match steps wf fs claim_json_path {| stream := []; store := ∅; world := w |} with
  | (Ok result, st) => (Ok result, st)
  | (Raise e, st) => (Raise (WorkflowRuntimeError e), st)
  end.

End Steps.

(** ** The specification's wording, for comparison with the code *)

(** The decision rule as the specification words it: the summary itself
    is searched, upper and lower case kept apart. *)
Definition spec_covered (rec : PolicyRecommendation) : bool :=
  (contains "covered" (recommendation_summary rec) &&
   negb (contains "not covered" (recommendation_summary rec))) ||
  match settlement_amount rec with
  | Some amount => PrimFloat.ltb 0 amount
  | None => false
  end.

(** The invariant the specification gives a parsed claim: the required
    fields are non-empty and the cost is not negative. *)
Definition nonempty (s : string) : bool :=
  match s with
  | EmptyString => false
  | String _ _ => true
  end.

Definition spec_claim_invariant (c : ClaimInfo) : bool :=
  nonempty (claim_number c) && nonempty (policy_number c) &&
  nonempty (claimant_name c) && nonempty (date_of_loss c) &&
  nonempty (loss_description c) &&
  PrimFloat.leb 0 (estimated_repair_cost c).

(** The JSON type a field is declared with: a string for the five text
    fields, a number for the cost. *)
Definition is_json_string (v : json) : bool :=
  match v with JStr _ => true | _ => false end.

Definition is_json_number (v : json) : bool :=
  match v with JNum _ => true | _ => false end.

Definition required_text_fields : list string :=
  ["claim_number"; "policy_number"; "claimant_name"; "date_of_loss";
   "loss_description"].

(** ** Sample inputs *)

(** A library under which no string reads as a number; the samples below
    carry no such string. *)
Definition sample_lib : PyLib :=
  {| float_of_str := fun _ => None;
     claim_dump_json := fun c => "{claim " +:+ claim_number c +:+ "}";
     recommendation_dump_json := fun r => "{" +:+ recommendation_summary r +:+ "}";
     decision_dump_json := fun d => "{decision " +:+ ClaimDecision.claim_number d +:+ "}" |}.

Definition claim_json (cost : json) : gmap string json :=
  <["claim_number" := JStr "C-1"]> (
  <["policy_number" := JStr "P-1"]> (
  <["claimant_name" := JStr "John"]> (
  <["date_of_loss" := JStr "2025-06-20"]> (
  <["loss_description" := JStr "Collision"]> (
  <["estimated_repair_cost" := cost]> ∅))))).

(** The files of scenarios A, B and C, one that is not JSON, one with the
    legacy field names only, one with empty texts and a negative cost, and
    one with a boolean where the cost should be. *)
Definition sample_fs : filesystem :=
  <["a.json" := Holds (JObj (claim_json (JNum 5000)))]> (
  <["b.json" := Holds (JObj (claim_json (JNum 20000)))]> (
  <["c.json" := Holds (JObj (delete "claim_number" (claim_json (JNum 5000))))]> (
  <["broken.json" := Unreadable "Expecting value: line 1 column 1 (char 0)"]> (
  <["legacy.json" := Holds (JObj (
      <["claim_number" := JStr "C-2"]> (
      <["policy_number" := JStr "P-2"]> (
      <["policyholder_name" := JStr "Alice"]> (
      <["date_of_incident" := JStr "2025-01-02"]> (
      <["description" := JStr "Hail"]> (
      <["damage_amount" := JNum 1200]> ∅)))))))]> (
  <["empty.json" := Holds (JObj (
      <["claim_number" := JStr ""]> (
      <["policy_number" := JStr ""]> (
      <["claimant_name" := JStr ""]> (
      <["date_of_loss" := JStr ""]> (
      <["loss_description" := JStr ""]> (
      <["estimated_repair_cost" := JNum (-100)]> ∅)))))))]> (
  <["bool.json" := Holds (JObj (claim_json (JBool true)))]> ∅)))))).

(** A model that raises on every call, and a retriever that gives the
    same node identifier twice. The outside world is [unit] for both. *)
Definition failing_llm : LLM unit :=
  {| astructured_predict_queries := fun _ _ w => (Throws "service unavailable", w);
     astructured_predict_recommendation := fun _ _ _ w => (Throws "service unavailable", w) |}.

Definition sample_nodes : list NodeWithScore :=
  [ {| id_ := "n1"; get_content := "first text of n1" |};
    {| id_ := "n2"; get_content := "text of n2" |};
    {| id_ := "n1"; get_content := "last text of n1" |} ].

Definition sample_retriever : BaseRetriever unit :=
  {| aretrieve := Some (fun query w =>
       (Returns (if String.eqb query "Policy limits and coverage details"
                 then sample_nodes else []), w));
     retrieve := None |}.

(** The claim of scenario A, as [parse_claim] reads it, and a context
    in which step 1 has stored it. *)
Definition scenario_a_claim : ClaimInfo :=
  {| claim_number := "C-1"; policy_number := "P-1"; claimant_name := "John";
     date_of_loss := "2025-06-20"; loss_description := "Collision";
     estimated_repair_cost := 5000; vehicle_details := None |}.

Definition loaded_state : RunState unit :=
  {| stream := []; store := {["claim_info" := CtxClaim scenario_a_claim]};
     world := tt |}.

(** A recommendation whose summary has the word with a capital letter and
    which gives no settlement amount. *)
Definition capitalised_recommendation : PolicyRecommendation :=
  {| policy_section := "PART D - COLLISION COVERAGE";
     recommendation_summary := "Covered under collision coverage.";
     deductible := None; settlement_amount := None |}.

(** A mapping that has both a legacy key and the canonical one. *)
Definition both_json : gmap string json :=
  <["damage_amount" := JNum 700]> (claim_json (JNum 5000)).

(** ** The retrieval results, apart from their merging *)

(** The nodes the queries bring back, in retrieval order, up to the first
    call that raises; the exception of that call, if any; the world
    afterwards. *)
Fixpoint query_results {W} (r : BaseRetriever W) (qs : list string) (w : W)
  : list NodeWithScore * option string * W :=
  match qs with
  | [] => ([], None, w)
  | query :: qs' =>
      match fetch r query w with
      | (Returns docs, w') =>
          let '(rest, failure, w'') := query_results r qs' w' in
          (docs ++ rest, failure, w'')
      | (Throws e, w') => ([], Some e, w')
      end
  end.

(** All that one run retrieves: the results of the queries and then, when
    none of them raised, the declarations page. *)
Definition retrieved_nodes {W} (r : BaseRetriever W) (qs : list string)
    (policy_number : string) (w : W) : list NodeWithScore :=
  let '(docs, failure, w') := query_results r qs w in
  match failure with
  | None => docs ++ fst (get_declarations_docs r policy_number 1 w')
  | Some _ => docs
  end.


(** The built-in policy text, as it reads for a policy number. *)
Abbreviation built_in_policy_text policy_number :=
  ("
CALIFORNIA PERSONAL AUTO POLICY
Policy Number: " +:+ policy_number +:+ "

PART D - COVERAGE FOR DAMAGE TO YOUR AUTO
COLLISION COVERAGE
We will pay for direct and accidental loss to your covered auto caused by collision with another object or by upset of your covered auto.

DEDUCTIBLE
For each loss, our limit of liability will be reduced by the applicable deductible amount shown in the Declarations.
Standard collision deductible: $500
Comprehensive deductible: $250

LIMITS OF LIABILITY
Our limit of liability for loss will be the lesser of:
1. The actual cash value of the stolen or damaged property; or
2. The amount necessary to repair or replace the property.

EXCLUSIONS
We do not provide coverage for:
1. Loss to your covered auto which occurs while it is used to carry persons or property for compensation
2. Loss due to wear and tear, freezing, mechanical breakdown
3. Loss to equipment designed for the reproduction of sound
        ").

(** A retriever with both methods that counts its calls: it finds the
    three sample nodes for the last of the fallback queries and, for the
    declarations page, a page under the identifier [n2] and a second
    one. *)
Definition counting_retriever : BaseRetriever nat :=
  {| aretrieve := Some (fun query calls =>
       (Returns (if String.eqb query "Policy limits and coverage details"
                 then sample_nodes else []), S calls));
     retrieve := Some (fun query filters calls =>
       (Returns [ {| id_ := "n2"; get_content := "page of " +:+ query |};
                  {| id_ := "n3"; get_content := "second page" |} ],
        S calls)) |}.

Definition counting_state : RunState nat :=
  {| stream := []; store := {["claim_info" := CtxClaim scenario_a_claim]};
     world := 0 |}.




(** A model that raises on every call, whatever the world. *)
Definition always_throws {W} (model : LLM W) : Prop :=
  (forall prompt claim w, exists e w',
      astructured_predict_queries model prompt claim w = (Throws e, w')) /\
  (forall prompt claim text w, exists e w',
      astructured_predict_recommendation model prompt claim text w = (Throws e, w')).

(** The nodes a run retrieves: none without a retriever. *)
Definition run_nodes {W} (wf : AutoInsuranceWorkflow W) (qs : PolicyQueries)
    (claim_info : ClaimInfo) (w : W) : list NodeWithScore :=
  match policy_retriever wf with
  | Some r => retrieved_nodes r (queries qs) (policy_number claim_info) w
  | None => []
  end.

(** No model answers: there is none, or the one there is always raises. *)
Definition no_reasoner {W} (wf : AutoInsuranceWorkflow W) : Prop :=
  llm wf = None \/ exists model, llm wf = Some model /\ always_throws model.

(** ** Building the workflow: [__init__] and the app's [initialize_workflow] *)

(** [os.environ]. *)
Abbreviation environ := (gmap string string).

(** [os.getenv(key)] in a condition: the variable is set and not empty. *)
Definition getenv_truthy (env : environ) (key : string) : bool :=
  match env !! key with
  | Some (String _ _) => true
  | _ => false
  end.

(** What building the two clients gives, [None] when it raises:
    [OpenAI(model="gpt-4o")], and the retriever of the LlamaCloud index
    (its import, [LlamaCloudIndex(...)] and [as_retriever]). *)
Record Clients (W : Type) := {
  openai_client : option (LLM W);
  llama_cloud_retriever : option (BaseRetriever W);
}.
Arguments openai_client {W} _.
Arguments llama_cloud_retriever {W} _.

(** [AutoInsuranceWorkflow(policy_retriever, llm, verbose, timeout=None)]
    in an environment: [__init__] looks for the API key itself when it is
    given no model. *)
Definition new_workflow {W} (env : environ) (clients : Clients W)
    (policy_retriever : option (BaseRetriever W)) (llm : option (LLM W))
    (verbose : bool) : AutoInsuranceWorkflow W :=
  init policy_retriever llm verbose
    (if getenv_truthy env "OPENAI_API_KEY" then openai_client clients else None).

(** [initialize_workflow(use_ai, verbose)] of [streamlit_app.py], as it
    runs when its result is not cached; the notices it puts in the side
    bar are left out. The retriever is looked for only after the model has
    been built. *)
Definition initialize_workflow {W} (env : environ) (clients : Clients W)
    (use_ai verbose : bool) : AutoInsuranceWorkflow W :=
  let '(policy_retriever, llm) :=
    if use_ai && bool_decide ("OPENAI_API_KEY" ∈ dom env) then
      match openai_client clients with
      | Some model =>
          (if bool_decide ("LLAMA_CLOUD_API_KEY" ∈ dom env)
           then llama_cloud_retriever clients else None,
           Some model)
      | None => (None, None)
      end
    else (None, None) in
  new_workflow env clients policy_retriever llm verbose.

(** ** More sample inputs *)

(** A model that answers every request: with two queries, and with a
    recommendation that pays 1234. *)
Definition answering_recommendation : PolicyRecommendation :=
  {| policy_section := "PART D"; recommendation_summary := "Loss is covered.";
     deductible := Some 250%float; settlement_amount := Some 1234%float |}.

Definition answering_llm : LLM unit :=
  {| astructured_predict_queries := fun _ _ w =>
       (Returns {| queries := ["collision coverage"; "deductible"] |}, w);
     astructured_predict_recommendation := fun _ _ _ w =>
       (Returns answering_recommendation, w) |}.

(** A retriever that raises on the query about exclusions. *)
Definition flaky_retriever : BaseRetriever unit :=
  {| aretrieve := Some (fun query w =>
       (if String.prefix "Exclusions" query then Throws "timed out"
        else Returns [ {| id_ := query; get_content := "text for " +:+ query |} ],
        w));
     retrieve := None |}.

(** A claim of 300 whose number contains the words "Not Covered", and a
    claim with a key that is no field. *)
Definition more_fs : filesystem :=
  <["n.json" := Holds (JObj (<["claim_number" := JStr "Not Covered-7"]>
                               (claim_json (JNum 300))))]> (
  <["x.json" := Holds (JObj (claim_json (JNum 5000)))]> ∅).

(** * Properties *)

(** ** The fallback queries *)





(** The fourth query for that description. *)
Example fallback_query_in_small_letters :
  forall claim_info : ClaimInfo,
    loss_description claim_info = "Rear-End COLLISION on I-5" ->
    nth_error (queries (_generate_fallback_queries claim_info)) 3 =
      Some "Exclusions for rear-end collision on i-5".
Proof. intros claim_info H. cbn. now rewrite H. Qed.

(** ** The fallback recommendation *)

Lemma max0_not_negative (x : float) : PrimFloat.ltb (max0 x) 0 = false.
Proof.
  unfold max0. destruct (PrimFloat.ltb 0 x) eqn:Hpos; [|reflexivity].
  rewrite ltb_spec in *. change (Prim2SF 0) with (S754_zero false) in *.
  unfold SFltb in *.
  destruct (Prim2SF x) as [[]|[]| |[] m e]; simpl in *; congruence.
Qed.

(** C2: the fallback recommendation has the deductible 500 and the fixed
    policy section. Its settlement is [cost - 500] when the cost is below
    15000 and [cost - 500] is positive, and 0 in every other case, so it
    is never negative. Its summary says that the claim is covered, with
    this settlement, exactly when the cost is below 15000, and that it is
    not covered otherwise. Nothing of it depends on the evidence text. *)
Theorem fallback_recommendation_rule (claim_info : ClaimInfo) (policy_text : string) :
  let cost := estimated_repair_cost claim_info in
  let rec := _generate_fallback_recommendation claim_info policy_text in
  let covered := PrimFloat.ltb cost 15000 in
  let settlement :=
    if covered && PrimFloat.ltb 0 (cost - 500) then (cost - 500)%float
    else 0%float in
  deductible rec = Some 500%float /\
  settlement_amount rec = Some settlement /\
  PrimFloat.ltb settlement 0 = false /\
  policy_section rec = "PART D - COLLISION COVERAGE" /\
  recommendation_summary rec =
    ("Claim " +:+ claim_number claim_info +:+ " for $" +:+ format_2f cost +:+
     " damage") +:+
    (if covered
     then " is covered. Settlement: $" +:+
          format_2f settlement +:+ " after $500.00 deductible."
     else " exceeds policy limits and is not covered.") /\
  (forall other_text : string,
      _generate_fallback_recommendation claim_info other_text = rec).
Proof.
  cbv zeta.
  assert (Hmax : (if PrimFloat.ltb (estimated_repair_cost claim_info) 15000 &&
                     PrimFloat.ltb 0 (estimated_repair_cost claim_info - 500)
                  then (estimated_repair_cost claim_info - 500)%float
                  else 0%float) = fallback_settlement claim_info).
  { unfold fallback_settlement, fallback_covered, max0, fallback_deductible.
    now destruct (PrimFloat.ltb (estimated_repair_cost claim_info) 15000). }
  rewrite Hmax. repeat split.
  - unfold fallback_settlement.
    destruct (fallback_covered claim_info); [apply max0_not_negative|reflexivity].
  - unfold _generate_fallback_recommendation, recommendation_summary,
      fallback_summary, fallback_covered.
    change (format_2f fallback_deductible) with "500.00".
    now destruct (PrimFloat.ltb (estimated_repair_cost claim_info) 15000).
Qed.

(** ** Renaming the legacy keys *)

Lemma lookup_rename_key (legacy canonical k : string) (data : gmap string json) :
  rename_key legacy canonical data !! k =
    match data !! legacy with
    | Some v =>
        if decide (k = canonical) then Some v
        else if decide (k = legacy) then None else data !! k
    | None => data !! k
    end.
Proof.
  unfold rename_key. destruct (data !! legacy) as [v|] eqn:Hl; [|reflexivity].
  destruct (decide (k = canonical)) as [->|Hc].
  - apply lookup_insert_eq.
  - rewrite lookup_insert_ne by congruence.
    destruct (decide (k = legacy)) as [->|Hk].
    + apply lookup_delete_eq.
    + apply lookup_delete_ne. congruence.
Qed.

Lemma rename_legacy_unfold (data : gmap string json) :
  rename_legacy data =
    rename_key "description" "loss_description"
      (rename_key "date_of_incident" "date_of_loss"
         (rename_key "policyholder_name" "claimant_name"
            (rename_key "damage_amount" "estimated_repair_cost" data))).
Proof. reflexivity. Qed.

Ltac table_cases H :=
  apply list_elem_of_In in H; simpl in H;
  repeat (destruct H as [H|H]; [inversion H; subst; clear H|]);
  [..|contradiction].

Ltac rename_lookups :=
  rewrite rename_legacy_unfold, !lookup_rename_key;
  repeat match goal with
         | |- context [decide (?a = ?b)] =>
             destruct (decide (a = b)); try discriminate; subst
         end.

(** After the renaming no legacy key is left, and a canonical key holds
    the value of its legacy key when the input had one, and its own value
    otherwise. *)
Lemma rename_legacy_pair (data : gmap string json) (legacy canonical : string) :
  (legacy, canonical) ∈ rename_table ->
  rename_legacy data !! legacy = None /\
  rename_legacy data !! canonical =
    match data !! legacy with
    | Some v => Some v
    | None => data !! canonical
    end.
Proof.
  intros H. table_cases H; split; rename_lookups;
    repeat match goal with
           | |- context [match ?d !! ?k with _ => _ end] => destruct (d !! k) eqn:?
           end; congruence.
Qed.

(** A key that the table does not mention is left as it was. *)
Lemma rename_legacy_other (data : gmap string json) (k : string) :
  k ∉ rename_table.*1 -> k ∉ rename_table.*2 ->
  rename_legacy data !! k = data !! k.
Proof.
  intros H1 H2. simpl in H1, H2.
  rewrite !not_elem_of_cons in H1, H2.
  destruct H1 as (? & ? & ? & ? & _), H2 as (? & ? & ? & ? & _).
  rewrite rename_legacy_unfold, !lookup_rename_key.
  repeat match goal with
         | |- context [decide (?a = ?b)] => destruct (decide (a = b)); try congruence
         | |- context [match ?d !! ?x with _ => _ end] => destruct (d !! x) eqn:?
         end; congruence.
Qed.

(** ** Validation *)

(** The error entries [model_validate] reports, field by field. *)
Definition validation_errors (py : PyLib) (data : gmap string json)
  : list (string * error_type) :=
  field_error "claim_number" (validate_str (data !! "claim_number")) ++
  field_error "policy_number" (validate_str (data !! "policy_number")) ++
  field_error "claimant_name" (validate_str (data !! "claimant_name")) ++
  field_error "date_of_loss" (validate_str (data !! "date_of_loss")) ++
  field_error "loss_description" (validate_str (data !! "loss_description")) ++
  field_error "estimated_repair_cost"
    (validate_float py (data !! "estimated_repair_cost")) ++
  field_error "vehicle_details"
    (validate_optional_str (data !! "vehicle_details")).

Lemma validate_str_inl (v : option json) (s : string) :
  validate_str v = inl s -> v = Some (JStr s).
Proof. destruct v as [[]|]; simpl; congruence. Qed.

Lemma validate_str_inr (v : option json) :
  v = None \/ (exists j, v = Some j /\ is_json_string j = false) ->
  exists e, validate_str v = inr e.
Proof.
  intros [->|(j & -> & Hj)]; [now exists missing|].
  destruct j; simpl in *; try discriminate; now exists string_type.
Qed.

(** A validated claim has every field as its validator read it. *)
Lemma model_validate_inl (py : PyLib) (data : gmap string json) (c : ClaimInfo) :
  model_validate py data = inl c ->
  validate_str (data !! "claim_number") = inl (claim_number c) /\
  validate_str (data !! "policy_number") = inl (policy_number c) /\
  validate_str (data !! "claimant_name") = inl (claimant_name c) /\
  validate_str (data !! "date_of_loss") = inl (date_of_loss c) /\
  validate_str (data !! "loss_description") = inl (loss_description c) /\
  validate_float py (data !! "estimated_repair_cost") = inl (estimated_repair_cost c) /\
  validate_optional_str (data !! "vehicle_details") = inl (vehicle_details c).
Proof.
  unfold model_validate. cbv zeta.
  destruct (validate_str (data !! "claim_number")); [|discriminate].
  destruct (validate_str (data !! "policy_number")); [|discriminate].
  destruct (validate_str (data !! "claimant_name")); [|discriminate].
  destruct (validate_str (data !! "date_of_loss")); [|discriminate].
  destruct (validate_str (data !! "loss_description")); [|discriminate].
  destruct (validate_float py (data !! "estimated_repair_cost")); [|discriminate].
  destruct (validate_optional_str (data !! "vehicle_details")); [|discriminate].
  intros [= <-]. repeat split.
Qed.

(** Validation fails exactly when some field has an error entry, and then
    it reports all of them. *)
Lemma model_validate_inr (py : PyLib) (data : gmap string json) :
  validation_errors py data <> [] ->
  model_validate py data = inr (validation_errors py data).
Proof.
  unfold model_validate, validation_errors. cbv zeta.
  destruct (validate_str (data !! "claim_number")); [|reflexivity].
  destruct (validate_str (data !! "policy_number")); [|reflexivity].
  destruct (validate_str (data !! "claimant_name")); [|reflexivity].
  destruct (validate_str (data !! "date_of_loss")); [|reflexivity].
  destruct (validate_str (data !! "loss_description")); [|reflexivity].
  destruct (validate_float py (data !! "estimated_repair_cost")); [|reflexivity].
  destruct (validate_optional_str (data !! "vehicle_details")); [|reflexivity].
  simpl. congruence.
Qed.

(** The entry of a failing field is among the reported ones. *)
Lemma field_error_reported (py : PyLib) (data : gmap string json)
    (loc : string) (e : error_type) :
  (loc ∈ required_text_fields /\ validate_str (data !! loc) = inr e) \/
  (loc = "estimated_repair_cost" /\
   validate_float py (data !! "estimated_repair_cost") = inr e) ->
  (loc, e) ∈ validation_errors py data.
Proof.
  unfold validation_errors.
  intros [[Hloc Hv]|[-> Hv]].
  - assert (Hin : (loc, e) ∈ field_error loc (validate_str (data !! loc)))
      by (rewrite Hv; now apply list_elem_of_singleton).
    apply list_elem_of_In in Hloc. simpl in Hloc.
    rewrite !elem_of_app.
    repeat (destruct Hloc as [<-|Hloc]; [tauto|]).
    contradiction.
  - rewrite Hv, !elem_of_app. do 5 right. left. now apply list_elem_of_singleton.
Qed.

Lemma parse_claim_holds (py : PyLib) (fs : filesystem) (path : string)
    (data : gmap string json) :
  fs !! path = Some (Holds (JObj data)) ->
  parse_claim py fs path =
    match model_validate py (rename_legacy data) with
    | inl claim_info => Ok claim_info
    | inr errors => Raise (ValueError path (ValidationError errors))
    end.
Proof. intros H. unfold parse_claim. now rewrite H. Qed.

(** A failing field makes [parse_claim] raise, with the field named. *)
Lemma parse_claim_field_error (py : PyLib) (fs : filesystem) (path : string)
    (data : gmap string json) (loc : string) (e : error_type) :
  fs !! path = Some (Holds (JObj data)) ->
  (loc, e) ∈ validation_errors py (rename_legacy data) ->
  exists errors,
    parse_claim py fs path = Raise (ValueError path (ValidationError errors)) /\
    (loc, e) ∈ errors.
Proof.
  intros Hfs Hin. exists (validation_errors py (rename_legacy data)).
  split; [|exact Hin].
  rewrite (parse_claim_holds _ _ _ _ Hfs), model_validate_inr; [reflexivity|].
  intros Hnil. rewrite Hnil in Hin. now apply not_elem_of_nil in Hin.
Qed.

(** ** [parse_claim] *)

(** C4, as the code has it: a claim that [parse_claim] returns has each
    required text field equal to a string of the renamed input, and the
    cost equal to the float read from it; nothing more is checked, so an
    input without such a field, or with another value in a text field, is
    not parsed. *)
Theorem parse_claim_reads_fields (py : PyLib) (fs : filesystem) (path : string)
    (c : ClaimInfo) :
  parse_claim py fs path = Ok c ->
  exists data,
    fs !! path = Some (Holds (JObj data)) /\
    rename_legacy data !! "claim_number" = Some (JStr (claim_number c)) /\
    rename_legacy data !! "policy_number" = Some (JStr (policy_number c)) /\
    rename_legacy data !! "claimant_name" = Some (JStr (claimant_name c)) /\
    rename_legacy data !! "date_of_loss" = Some (JStr (date_of_loss c)) /\
    rename_legacy data !! "loss_description" = Some (JStr (loss_description c)) /\
    validate_float py (rename_legacy data !! "estimated_repair_cost") =
      inl (estimated_repair_cost c).
Proof.
  unfold parse_claim. intros H.
  destruct (fs !! path) as [[msg|[| | | | |data]]|] eqn:Hfs; try discriminate.
  exists data. split; [reflexivity|].
  destruct (model_validate py (rename_legacy data)) as [c'|errs] eqn:Hv;
    [|discriminate].
  injection H as ->.
  apply model_validate_inl in Hv.
  destruct Hv as (H1 & H2 & H3 & H4 & H5 & H6 & _).
  repeat split; auto using validate_str_inl.
Qed.

Lemma parse_claim_reads_fields_witness :
  exists data,
    sample_fs !! "a.json" = Some (Holds (JObj data)) /\
    rename_legacy data !! "claim_number" = Some (JStr "C-1") /\
    rename_legacy data !! "policy_number" = Some (JStr "P-1") /\
    rename_legacy data !! "claimant_name" = Some (JStr "John") /\
    rename_legacy data !! "date_of_loss" = Some (JStr "2025-06-20") /\
    rename_legacy data !! "loss_description" = Some (JStr "Collision") /\
    validate_float sample_lib (rename_legacy data !! "estimated_repair_cost") =
      inl 5000%float.
Proof.
  apply (parse_claim_reads_fields sample_lib sample_fs "a.json" scenario_a_claim).
  vm_compute. reflexivity.
Defined.

(** C4 fails as stated: a file whose text fields are empty and whose cost
    is negative is parsed, and the claim breaks the stated invariant. *)
Lemma parse_claim_accepts_empty_and_negative :
  parse_claim sample_lib sample_fs "empty.json" =
    Ok {| claim_number := ""; policy_number := ""; claimant_name := "";
          date_of_loss := ""; loss_description := "";
          estimated_repair_cost := (-100)%float; vehicle_details := None |} /\
  spec_claim_invariant
    {| claim_number := ""; policy_number := ""; claimant_name := "";
       date_of_loss := ""; loss_description := "";
       estimated_repair_cost := (-100)%float; vehicle_details := None |} = false.
Proof. split; vm_compute; reflexivity. Qed.

(** C5, as the code has it: validation sees the input with the rename
    table applied, which moves the four legacy keys and touches no other
    key; the file-not-found error is raised exactly for a path
    that does not exist; a required text field that is missing or not a
    string, and a cost that is missing, null, a list, a mapping or a
    string that does not read as a number, make [parse_claim] raise its
    [ValueError] with an entry naming the field, as in scenario C. *)
Theorem parse_claim_errors (py : PyLib) (fs : filesystem) (path : string) :
  (forall data legacy canonical,
      (legacy, canonical) ∈ rename_table ->
      rename_legacy data !! legacy = None /\
      rename_legacy data !! canonical =
        match data !! legacy with
        | Some v => Some v
        | None => data !! canonical
        end) /\
  (forall data k,
      k ∉ rename_table.*1 -> k ∉ rename_table.*2 ->
      rename_legacy data !! k = data !! k) /\
  (forall data,
      fs !! path = Some (Holds (JObj data)) ->
      parse_claim py fs path =
        match model_validate py (rename_legacy data) with
        | inl claim_info => Ok claim_info
        | inr errors => Raise (ValueError path (ValidationError errors))
        end) /\
  ((exists p, parse_claim py fs path = Raise (FileNotFoundError p)) <->
   fs !! path = None) /\
  (forall data k,
      fs !! path = Some (Holds (JObj data)) ->
      k ∈ required_text_fields ->
      rename_legacy data !! k = None \/
      (exists j, rename_legacy data !! k = Some j /\ is_json_string j = false) ->
      exists errors e,
        parse_claim py fs path = Raise (ValueError path (ValidationError errors)) /\
        (k, e) ∈ errors) /\
  (forall data,
      fs !! path = Some (Holds (JObj data)) ->
      rename_legacy data !! "estimated_repair_cost" = None \/
      rename_legacy data !! "estimated_repair_cost" = Some JNull \/
      (exists items, rename_legacy data !! "estimated_repair_cost" = Some (JArr items)) \/
      (exists members, rename_legacy data !! "estimated_repair_cost" = Some (JObj members)) \/
      (exists s, rename_legacy data !! "estimated_repair_cost" = Some (JStr s) /\
                 float_of_str py s = None) ->
      exists errors e,
        parse_claim py fs path = Raise (ValueError path (ValidationError errors)) /\
        ("estimated_repair_cost", e) ∈ errors) /\
  parse_claim py sample_fs "c.json" =
    Raise (ValueError "c.json" (ValidationError [("claim_number", missing)])).
Proof.
  repeat apply conj.
  - intros data legacy canonical. apply rename_legacy_pair.
  - intros data k. apply rename_legacy_other.
  - apply parse_claim_holds.
  - intros [p Hp]. unfold parse_claim in Hp.
    destruct (fs !! path) as [[msg|[| | | | |data]]|]; try discriminate; [|reflexivity].
    now destruct (model_validate py (rename_legacy data)).
  - intros Hfs. exists path. unfold parse_claim. now rewrite Hfs.
  - intros data k Hfs Hk Hbad.
    destruct (validate_str_inr _ Hbad) as [e He].
    destruct (parse_claim_field_error py fs path data k e Hfs) as (errors & Hp & Hin).
    { apply field_error_reported. left. now split. }
    now exists errors, e.
  - intros data Hfs Hbad.
    assert (exists e, validate_float py (rename_legacy data !! "estimated_repair_cost")
                      = inr e) as [e He].
    { destruct Hbad as [->|[->|[[items ->]|[[members ->]|(s & -> & Hs)]]]]; simpl;
        rewrite ?Hs; eauto. }
    destruct (parse_claim_field_error py fs path data "estimated_repair_cost" e Hfs)
      as (errors & Hp & Hin).
    { apply field_error_reported. right. now split. }
    now exists errors, e.
  - vm_compute. reflexivity.
Qed.

(** C5 fails as stated: a boolean is not a number, yet in the cost field
    it is read as [1.0] and the claim is parsed. *)
Lemma parse_claim_accepts_boolean_cost :
  rename_legacy (claim_json (JBool true)) !! "estimated_repair_cost" =
    Some (JBool true) /\
  is_json_number (JBool true) = false /\
  parse_claim sample_lib sample_fs "bool.json" =
    Ok {| claim_number := "C-1"; policy_number := "P-1"; claimant_name := "John";
          date_of_loss := "2025-06-20"; loss_description := "Collision";
          estimated_repair_cost := 1%float; vehicle_details := None |}.
Proof. repeat split; vm_compute; reflexivity. Qed.

(** A string in the cost field is read as the number it writes, with any
    library that reads it so. *)
Example parse_claim_reads_numeric_string (py : PyLib) :
  float_of_str py "5000" = Some 5000%float ->
  parse_claim py {["s.json" := Holds (JObj (claim_json (JStr "5000")))]} "s.json" =
    Ok scenario_a_claim.
Proof.
  intros Hread. unfold parse_claim. rewrite lookup_singleton_eq.
  unfold model_validate. cbv zeta.
  replace (rename_legacy (claim_json (JStr "5000")) !! "estimated_repair_cost")
    with (Some (JStr "5000")) by (vm_compute; reflexivity).
  cbn [validate_float]. rewrite Hread.
  vm_compute. reflexivity.
Qed.

(** C10: when the input has both a legacy key and its canonical key, the
    renamed input holds the legacy key's value under the canonical key
    and no legacy key, and this renamed input is what gets validated. *)
Theorem legacy_alias_overrides (py : PyLib) (fs : filesystem) (path : string)
    (data : gmap string json) (legacy canonical : string) (v w : json) :
  (legacy, canonical) ∈ rename_table ->
  data !! legacy = Some v ->
  data !! canonical = Some w ->
  rename_legacy data !! canonical = Some v /\
  rename_legacy data !! legacy = None /\
  (fs !! path = Some (Holds (JObj data)) ->
   parse_claim py fs path =
     match model_validate py (rename_legacy data) with
     | inl claim_info => Ok claim_info
     | inr errors => Raise (ValueError path (ValidationError errors))
     end).
Proof.
  intros Htable Hl _.
  destruct (rename_legacy_pair data legacy canonical Htable) as [Hnone Hcanon].
  rewrite Hl in Hcanon. repeat split; auto using parse_claim_holds.
Qed.

Lemma legacy_alias_overrides_witness :
  rename_legacy both_json !! "estimated_repair_cost" = Some (JNum 700) /\
  rename_legacy both_json !! "damage_amount" = None /\
  (({["both.json" := Holds (JObj both_json)]} : filesystem) !! "both.json" =
     Some (Holds (JObj both_json)) ->
   parse_claim sample_lib {["both.json" := Holds (JObj both_json)]} "both.json" =
     match model_validate sample_lib (rename_legacy both_json) with
     | inl claim_info => Ok claim_info
     | inr errors => Raise (ValueError "both.json" (ValidationError errors))
     end).
Proof.
  apply (legacy_alias_overrides sample_lib {["both.json" := Holds (JObj both_json)]}
           "both.json" both_json "damage_amount" "estimated_repair_cost"
           (JNum 700) (JNum 5000)).
  - apply list_elem_of_here.
  - vm_compute. reflexivity.
  - vm_compute. reflexivity.
Defined.

(** ** The decision rule *)

(** With [claim_info] in the context, [finalize_decision] returns the
    decision that [make_decision] computes; it writes to the stream only. *)
Lemma finalize_decision_returns {W} (wf : AutoInsuranceWorkflow W)
    (rec : PolicyRecommendation) (claim_info : ClaimInfo) (st : RunState W) :
  store st !! "claim_info" = Some (CtxClaim claim_info) ->
  exists st',
    finalize_decision wf rec st = (Ok (make_decision claim_info rec), st') /\
    store st' = store st /\ world st' = world st.
Proof.
  intros Hctx. unfold finalize_decision, trace, ctx_get_claim, mbind, M_bind.
  destruct (_verbose wf); simpl; rewrite Hctx; simpl; eauto.
Qed.

(** C3, as the code has it: the finalizer always produces a decision for
    the loaded claim; [covered] holds when the lower-cased summary contains
    "covered" and does not contain "not covered", or when the settlement
    amount is set and positive; the deductible is the recommendation's, 0
    when unset; the payout is the settlement amount, 0 when it is unset or
    zero. On a summary without capital letters the rule is the one the
    specification words. *)
Theorem finalize_decision_rule {W} (wf : AutoInsuranceWorkflow W)
    (rec : PolicyRecommendation) (claim_info : ClaimInfo) (st : RunState W) :
  store st !! "claim_info" = Some (CtxClaim claim_info) ->
  exists d st',
    finalize_decision wf rec st = (Ok d, st') /\
    ClaimDecision.covered d =
      (contains "covered" (lower (recommendation_summary rec)) &&
       negb (contains "not covered" (lower (recommendation_summary rec))) ||
       match settlement_amount rec with
       | Some amount => PrimFloat.ltb 0 amount
       | None => false
       end) /\
    ClaimDecision.deductible d =
      match deductible rec with Some x => x | None => 0%float end /\
    ClaimDecision.recommended_payout d =
      match settlement_amount rec with
      | Some amount => if PrimFloat.eqb amount 0 then 0%float else amount
      | None => 0%float
      end /\
    (lower (recommendation_summary rec) = recommendation_summary rec ->
     ClaimDecision.covered d = spec_covered rec).
Proof.
  intros Hctx.
  destruct (finalize_decision_returns wf rec claim_info st Hctx) as (st' & Hrun & _).
  exists (make_decision claim_info rec), st'. split; [exact Hrun|].
  repeat split.
  - simpl. unfold truthy. now destruct (settlement_amount rec) as [a|]; [destruct (PrimFloat.eqb a 0)|].
  - intros Hlow. simpl. unfold decide_covered, spec_covered. now rewrite Hlow.
Qed.

Lemma finalize_decision_rule_witness :
  exists d st',
    finalize_decision (init None None true None) capitalised_recommendation
      loaded_state = (Ok d, st') /\
    ClaimDecision.covered d =
      (contains "covered" (lower "Covered under collision coverage.") &&
       negb (contains "not covered" (lower "Covered under collision coverage.")) ||
       false) /\
    ClaimDecision.deductible d = 0%float /\
    ClaimDecision.recommended_payout d = 0%float /\
    (lower "Covered under collision coverage." = "Covered under collision coverage." ->
     ClaimDecision.covered d = spec_covered capitalised_recommendation).
Proof.
  apply (finalize_decision_rule (init None None true None)
           capitalised_recommendation scenario_a_claim loaded_state).
  vm_compute. reflexivity.
Defined.

(** C3 fails as stated: the code searches the lower-cased summary, so a
    summary that says "Covered" makes the decision covered although the
    summary itself does not contain "covered". *)
Lemma finalize_decision_ignores_case :
  fst (finalize_decision (init None None false None) capitalised_recommendation
         loaded_state) =
    Ok {| ClaimDecision.claim_number := "C-1";
          ClaimDecision.covered := true;
          ClaimDecision.deductible := 0;
          ClaimDecision.recommended_payout := 0;
          ClaimDecision.notes := Some "Covered under collision coverage." |} /\
  spec_covered capitalised_recommendation = false.
Proof. split; vm_compute; reflexivity. Qed.

(** ** The scenarios *)

(** C1: with no retriever and no model, the run on the claim of scenario A
    returns a covered decision with deductible 500 and payout 4500, and on
    the same claim with a cost of 20000 a decision that is not covered,
    with deductible 500 and payout 0. *)
Theorem scenarios_without_capabilities (W : Type) (py : PyLib) (verbose : bool)
    (w : W) :
  fst (run py (init None None verbose None) sample_fs "a.json" w) =
    Ok {| ClaimDecision.claim_number := "C-1";
          ClaimDecision.covered := true;
          ClaimDecision.deductible := 500;
          ClaimDecision.recommended_payout := 4500;
          ClaimDecision.notes :=
            Some "Claim C-1 for $5000.00 damage is covered. Settlement: $4500.00 after $500.00 deductible." |} /\
  fst (run py (init None None verbose None) sample_fs "b.json" w) =
    Ok {| ClaimDecision.claim_number := "C-1";
          ClaimDecision.covered := false;
          ClaimDecision.deductible := 500;
          ClaimDecision.recommended_payout := 0;
          ClaimDecision.notes :=
            Some "Claim C-1 for $20000.00 damage exceeds policy limits and is not covered." |}.
Proof. destruct verbose; split; vm_compute; reflexivity. Qed.

(** ** The dictionary of retrieved nodes *)

Section Dict.
Context {V : Type}.
Implicit Types (d : list (string * V)) (k : string) (v : V).




End Dict.






Lemma add_docs_cons (acc : list (string * NodeWithScore)) (d : NodeWithScore)
    (docs : list NodeWithScore) :
  add_docs acc (d :: docs) = add_docs (dict_set (id_ d) d acc) docs.
Proof. reflexivity. Qed.

Lemma add_docs_app (acc : list (string * NodeWithScore)) (a b : list NodeWithScore) :
  add_docs acc (a ++ b) = add_docs (add_docs acc a) b.
Proof. unfold add_docs. apply foldl_app. Qed.





(** ** Running the steps *)

Section Runs.
Context {W : Type}.
Variable py : PyLib.
Implicit Types (st : RunState W) (wf : AutoInsuranceWorkflow W).

(** The state after a trace: one more event when verbose, the same state
    otherwise. *)
Definition traced wf (message : string) st : RunState W :=
  if _verbose wf
  then {| stream := stream st ++ [{| msg := message; delta := false |}];
          store := store st; world := world st |}
  else st.

Lemma trace_run wf message st : trace wf message st = (Ok tt, traced wf message st).
Proof. unfold trace, traced. now destruct (_verbose wf). Qed.

Lemma traced_store wf message st : store (traced wf message st) = store st.
Proof. unfold traced. now destruct (_verbose wf). Qed.

Lemma traced_world wf message st : world (traced wf message st) = world st.
Proof. unfold traced. now destruct (_verbose wf). Qed.

Lemma bind_run {A B} (m : M W A) (k : A -> M W B) st :
  (m ≫= k) st =
  match m st with
  | (Ok a, st') => k a st'
  | (Raise e, st') => (Raise e, st')
  end.
Proof. reflexivity. Qed.

(** [m] returns [a] from [st], leaving the context store as [s] and the
    world as [w]. *)
Definition returns {A} (m : M W A) st (a : A) (s : gmap string ctx_value) (w : W)
  : Prop :=
  exists st', m st = (Ok a, st') /\ store st' = s /\ world st' = w.

Lemma returns_bind {A B} (m : M W A) (k : A -> M W B) st a s w b s' w' :
  returns m st a s w ->
  (forall st1, store st1 = s -> world st1 = w -> returns (k a) st1 b s' w') ->
  returns (m ≫= k) st b s' w'.
Proof.
  intros (st1 & Hm & Hs & Hw) Hk. unfold returns. rewrite bind_run, Hm.
  now apply Hk.
Qed.

Lemma returns_ret {A} (a : A) st : returns (mret a) st a (store st) (world st).
Proof. now exists st. Qed.

Lemma returns_trace wf message st :
  returns (trace wf message) st tt (store st) (world st).
Proof.
  exists (traced wf message st).
  split; [apply trace_run|]. split; [apply traced_store|apply traced_world].
Qed.

Lemma returns_call {A} (f : W -> A * W) st :
  returns (call f) st (f (world st)).1 (store st) (f (world st)).2.
Proof. unfold returns, call. destruct (f (world st)) as [a w]. eauto. Qed.

Lemma returns_ctx_set key value st :
  returns (ctx_set key value) st tt (<[key := value]> (store st)) (world st).
Proof. unfold returns, ctx_set. eauto. Qed.

Lemma returns_ctx_get_claim key claim_info st :
  store st !! key = Some (CtxClaim claim_info) ->
  returns (ctx_get_claim key) st claim_info (store st) (world st).
Proof. intros H. unfold returns, ctx_get_claim. rewrite H. eauto. Qed.

Lemma returns_lift {A} (a : A) st : returns (lift (Ok a)) st a (store st) (world st).
Proof. unfold returns, lift. eauto. Qed.

(** [m] returns [a] from [st] and leaves the context store as [s],
    whatever it does to the world. *)
Definition finishes {A} (m : M W A) st (a : A) (s : gmap string ctx_value) : Prop :=
  exists w, returns m st a s w.

Lemma finishes_bind {A B} (m : M W A) (k : A -> M W B) st a s w b s' :
  returns m st a s w ->
  (forall st1, store st1 = s -> world st1 = w -> finishes (k a) st1 b s') ->
  finishes (m ≫= k) st b s'.
Proof.
  intros (st1 & Hm & Hs & Hw) Hk.
  destruct (Hk st1 Hs Hw) as (w' & Hk').
  exists w'. unfold returns. now rewrite bind_run, Hm.
Qed.

Lemma finishes_bind' {A B} (m : M W A) (k : A -> M W B) st a s b s' :
  finishes m st a s ->
  (forall st1, store st1 = s -> finishes (k a) st1 b s') ->
  finishes (m ≫= k) st b s'.
Proof.
  intros (w & Hm) Hk. eapply finishes_bind; [exact Hm|]. auto.
Qed.

Lemma finishes_ret {A} (a : A) st s : store st = s -> finishes (mret a) st a s.
Proof. intros <-. exists (world st). apply returns_ret. Qed.

Lemma returns_ret' {A} (a : A) st s w :
  store st = s -> world st = w -> returns (mret a) st a s w.
Proof. intros <- <-. apply returns_ret. Qed.

(** *** The retrieval step *)

Lemma query_loop_returns wf (r : BaseRetriever W) (qs : list string) :
  forall (acc : list (string * NodeWithScore)) st,
    returns (query_loop wf r qs acc) st
      (add_docs acc (query_results r qs (world st)).1.1,
       (query_results r qs (world st)).1.2)
      (store st) (query_results r qs (world st)).2.
Proof.
  induction qs as [|q qs IH]; intros acc st.
  - apply returns_ret.
  - cbn [query_loop query_results].
    eapply returns_bind; [apply returns_trace|]. intros st1 Hs1 Hw1.
    eapply returns_bind; [apply returns_call|]. intros st2 Hs2 Hw2.
    rewrite Hw1 in *.
    destruct (fetch r q (world st)) as [[docs|e] w1]; cbn [fst snd] in *.
    + specialize (IH (add_docs acc docs) st2). rewrite Hw2, Hs2, Hs1 in IH.
      destruct (query_results r qs w1) as [[rest failure] w2]. cbn [fst snd] in *.
      now rewrite add_docs_app.
    + apply returns_ret'; congruence.
Qed.

Lemma collect_docs_finishes wf (r : BaseRetriever W) (qs : list string)
    (claim_info : ClaimInfo) st :
  finishes (collect_docs wf r qs claim_info) st
    (add_docs [] (retrieved_nodes r qs (policy_number claim_info) (world st)))
    (store st).
Proof.
  unfold collect_docs, retrieved_nodes.
  pose proof (query_loop_returns wf r qs [] st) as Hloop.
  destruct (query_results r qs (world st)) as [[docs failure] w1].
  cbn [fst snd] in Hloop.
  eapply finishes_bind; [exact Hloop|]. intros st1 Hs1 Hw1. cbn beta iota.
  destruct failure as [e|].
  - eapply finishes_bind; [apply returns_trace|]. intros st2 Hs2 Hw2.
    apply finishes_ret; congruence.
  - eapply finishes_bind; [apply returns_call|]. intros st2 Hs2 Hw2.
    rewrite Hw1, add_docs_app. apply finishes_ret; congruence.
Qed.

Lemma retrieve_policy_text_finishes wf (qs : PolicyQueries)
    (claim_info : ClaimInfo) st :
  store st !! "claim_info" = Some (CtxClaim claim_info) ->
  let text := evidence_text (add_docs [] (run_nodes wf qs claim_info (world st)))
                claim_info in
  finishes (retrieve_policy_text wf qs) st text
    (<["policy_text" := CtxText text]> (store st)).
Proof.
  intros Hctx text. unfold retrieve_policy_text.
  eapply finishes_bind; [apply returns_trace|]. intros st1 Hs1 Hw1.
  eapply finishes_bind.
  { apply returns_ctx_get_claim. rewrite Hs1. exact Hctx. }
  intros st2 Hs2 Hw2.
  eapply finishes_bind' with
    (a := add_docs [] (run_nodes wf qs claim_info (world st))) (s := store st).
  { unfold run_nodes. rewrite <- Hw1, <- Hw2, <- Hs1, <- Hs2.
    destruct (policy_retriever wf) as [r|].
    - apply collect_docs_finishes.
    - now apply finishes_ret. }
  intros st3 Hs3. cbn zeta. fold text.
  eapply finishes_bind; [apply returns_ctx_set|]. intros st4 Hs4 Hw4.
  eapply finishes_bind; [apply returns_trace|]. intros st5 Hs5 Hw5.
  apply finishes_ret. congruence.
Qed.


(** *** The other steps *)

Tactic Notation "traced_step" "as" ident(st) ident(Hs) ident(Hw) :=
  eapply finishes_bind; [apply returns_trace|]; intros st Hs Hw.

Tactic Notation "call_step" "as" ident(st) ident(Hs) ident(Hw) :=
  eapply finishes_bind; [apply returns_call|]; intros st Hs Hw.

Lemma load_claim_info_finishes wf (fs : filesystem) (path : string)
    (claim_info : ClaimInfo) st :
  parse_claim py fs path = Ok claim_info ->
  finishes (load_claim_info py wf fs path) st claim_info
    (<["claim_info" := CtxClaim claim_info]> (store st)).
Proof.
  intros Hparse. unfold load_claim_info. rewrite Hparse.
  traced_step as st1 Hs1 Hw1.
  eapply finishes_bind; [apply returns_lift|]. intros st2 Hs2 Hw2.
  eapply finishes_bind; [apply returns_ctx_set|]. intros st3 Hs3 Hw3.
  traced_step as st4 Hs4 Hw4.
  apply finishes_ret. congruence.
Qed.

Lemma generate_policy_queries_finishes wf (claim_info : ClaimInfo) st :
  exists qs, finishes (generate_policy_queries py wf claim_info) st qs (store st).
Proof.
  unfold generate_policy_queries.
  destruct (llm wf) as [model|].
  - destruct (astructured_predict_queries model GENERATE_POLICY_QUERIES_PROMPT
                (claim_dump_json py claim_info) (world st)) as [[qs|e] w1] eqn:Hcall.
    + exists qs. traced_step as st1 Hs1 Hw1.
      eapply finishes_bind'.
      { call_step as st2 Hs2 Hw2.
        rewrite Hw1, Hcall. cbn [fst]. apply finishes_ret. exact Hs2. }
      intros st3 Hs3. traced_step as st4 Hs4 Hw4. apply finishes_ret. congruence.
    + exists (_generate_fallback_queries claim_info). traced_step as st1 Hs1 Hw1.
      eapply finishes_bind'.
      { call_step as st2 Hs2 Hw2.
        rewrite Hw1, Hcall. cbn [fst]. traced_step as st3 Hs3 Hw3.
        apply finishes_ret. rewrite Hs3. exact Hs2. }
      intros st4 Hs4. traced_step as st5 Hs5 Hw5. apply finishes_ret. congruence.
  - exists (_generate_fallback_queries claim_info). traced_step as st1 Hs1 Hw1.
    eapply finishes_bind'; [now apply finishes_ret|].
    intros st3 Hs3. traced_step as st4 Hs4 Hw4. apply finishes_ret. congruence.
Qed.

Lemma generate_recommendation_finishes wf (policy_text : string)
    (claim_info : ClaimInfo) st :
  store st !! "claim_info" = Some (CtxClaim claim_info) ->
  exists rec,
    finishes (generate_recommendation py wf policy_text) st rec (store st) /\
    (no_reasoner wf ->
     rec = _generate_fallback_recommendation claim_info policy_text).
Proof.
  intros Hctx. unfold generate_recommendation.
  assert (Hget : forall st1, store st1 = store st ->
            returns (ctx_get_claim "claim_info") st1 claim_info (store st1) (world st1)).
  { intros st1 Hs1. apply returns_ctx_get_claim. now rewrite Hs1. }
  destruct (llm wf) as [model|] eqn:Hllm.
  - destruct (astructured_predict_recommendation model POLICY_RECOMMENDATION_PROMPT
                (claim_dump_json py claim_info) policy_text (world st))
      as [[rec|e] w1] eqn:Hcall.
    + exists rec. split.
      * traced_step as st1 Hs1 Hw1.
        eapply finishes_bind; [now apply Hget|]. intros st2 Hs2 Hw2.
        eapply finishes_bind'.
        { call_step as st3 Hs3 Hw3.
          rewrite Hw2, Hw1, Hcall. cbn [fst]. apply finishes_ret. exact Hs3. }
        intros st4 Hs4. traced_step as st5 Hs5 Hw5. apply finishes_ret. congruence.
      * intros [Hnone|(model' & Hmodel & _ & Hthrows)]; [congruence|].
        rewrite Hllm in Hmodel. injection Hmodel as <-.
        destruct (Hthrows POLICY_RECOMMENDATION_PROMPT
                    (claim_dump_json py claim_info) policy_text (world st))
          as (e & w' & He).
        congruence.
    + exists (_generate_fallback_recommendation claim_info policy_text).
      split; [|reflexivity].
      traced_step as st1 Hs1 Hw1.
      eapply finishes_bind; [now apply Hget|]. intros st2 Hs2 Hw2.
      eapply finishes_bind'.
      { call_step as st3 Hs3 Hw3.
        rewrite Hw2, Hw1, Hcall. cbn [fst]. traced_step as st4 Hs4 Hw4.
        apply finishes_ret. rewrite Hs4. exact Hs3. }
      intros st5 Hs5. traced_step as st6 Hs6 Hw6. apply finishes_ret. congruence.
  - exists (_generate_fallback_recommendation claim_info policy_text).
    split; [|reflexivity].
    traced_step as st1 Hs1 Hw1.
    eapply finishes_bind; [now apply Hget|]. intros st2 Hs2 Hw2.
    eapply finishes_bind'; [now apply finishes_ret|].
    intros st4 Hs4. traced_step as st5 Hs5 Hw5. apply finishes_ret. congruence.
Qed.

Lemma finalize_decision_finishes wf (rec : PolicyRecommendation)
    (claim_info : ClaimInfo) st :
  store st !! "claim_info" = Some (CtxClaim claim_info) ->
  finishes (finalize_decision wf rec) st (make_decision claim_info rec) (store st).
Proof.
  intros Hctx.
  destruct (finalize_decision_returns wf rec claim_info st Hctx) as (st' & H & Hs & Hw).
  exists (world st), st'. auto.
Qed.

Lemma output_result_finishes wf (decision : ClaimDecision.t) st :
  finishes (output_result py wf decision) st decision (store st).
Proof.
  unfold output_result. traced_step as st1 Hs1 Hw1. apply finishes_ret. congruence.
Qed.

(** The six steps in a row: with a claim that parses they return the
    decision made from some recommendation, which is the fallback
    recommendation when no model answers. *)
Lemma steps_finish wf (fs : filesystem) (path : string) (claim_info : ClaimInfo) st :
  parse_claim py fs path = Ok claim_info ->
  exists rec text s,
    finishes (steps py wf fs path) st (make_decision claim_info rec) s /\
    (no_reasoner wf -> rec = _generate_fallback_recommendation claim_info text).
Proof.
  intros Hparse. unfold steps.
  pose proof (load_claim_info_finishes wf fs path claim_info st Hparse) as Hload.
  destruct Hload as (w1 & st1 & Hload & Hs1 & Hw1).
  destruct (generate_policy_queries_finishes wf claim_info st1)
    as (qs & w2 & st2 & Hqs & Hs2 & Hw2).
  assert (Hctx2 : store st2 !! "claim_info" = Some (CtxClaim claim_info)).
  { rewrite Hs2, Hs1. apply lookup_insert_eq. }
  destruct (retrieve_policy_text_finishes wf qs claim_info st2 Hctx2)
    as (w3 & st3 & Htext & Hs3 & Hw3).
  set (text := evidence_text (add_docs [] (run_nodes wf qs claim_info (world st2)))
                 claim_info) in *.
  assert (Hctx3 : store st3 !! "claim_info" = Some (CtxClaim claim_info)).
  { rewrite Hs3. now rewrite lookup_insert_ne. }
  destruct (generate_recommendation_finishes wf text claim_info st3 Hctx3)
    as (rec & (w4 & st4 & Hrec & Hs4 & Hw4) & Hfallback).
  assert (Hctx4 : store st4 !! "claim_info" = Some (CtxClaim claim_info)).
  { now rewrite Hs4. }
  destruct (finalize_decision_finishes wf rec claim_info st4 Hctx4)
    as (w5 & st5 & Hfin & Hs5 & Hw5).
  destruct (output_result_finishes wf (make_decision claim_info rec) st5)
    as (w6 & st6 & Hout & Hs6 & Hw6).
  exists rec, text, (store st6). split; [|exact Hfallback].
  exists w6, st6. split; [|auto].
  now rewrite bind_run, Hload, bind_run, Hqs, bind_run, Htext, bind_run, Hrec,
    bind_run, Hfin.
Qed.

End Runs.

(** ** Two runs that differ in what they trace *)

Section Tracing.
Context {W : Type}.
Variable py : PyLib.
Implicit Types (st : RunState W) (wf : AutoInsuranceWorkflow W).

(** Two states with the same context store and the same world; their
    streams may differ. *)
Definition agree st1 st2 : Prop :=
  store st1 = store st2 /\ world st1 = world st2.

(** From states that agree, the two computations end alike: the same
    value or the same exception, in states that agree. *)
Definition alike {A} (m1 m2 : M W A) : Prop :=
  forall st1 st2, agree st1 st2 ->
    fst (m1 st1) = fst (m2 st2) /\ agree (snd (m1 st1)) (snd (m2 st2)).

Lemma alike_ret {A} (a : A) : alike (mret a : M W A) (mret a).
Proof. intros st1 st2 H. now split. Qed.

Lemma alike_bind {A B} (m1 m2 : M W A) (k1 k2 : A -> M W B) :
  alike m1 m2 -> (forall a, alike (k1 a) (k2 a)) -> alike (m1 ≫= k1) (m2 ≫= k2).
Proof.
  intros Hm Hk st1 st2 Hag. rewrite !bind_run.
  destruct (Hm st1 st2 Hag) as [Hfst Hsnd].
  destruct (m1 st1) as [[a1|e1] st1'], (m2 st2) as [[a2|e2] st2'];
    cbn [fst snd] in *; try discriminate.
  - injection Hfst as <-. now apply Hk.
  - injection Hfst as <-. now split.
Qed.

(** A trace changes the stream only, whatever the flag and the message. *)
Lemma alike_trace wf1 wf2 (message1 message2 : string) :
  alike (trace wf1 message1) (trace wf2 message2).
Proof.
  intros st1 st2 [Hs Hw]. rewrite !trace_run. cbn [fst snd]. split; [reflexivity|].
  split; now rewrite !traced_store || rewrite !traced_world.
Qed.

Lemma alike_call {A} (f : W -> A * W) : alike (call f) (call f).
Proof.
  intros st1 st2 [Hs Hw]. unfold call. rewrite Hw.
  destruct (f (world st2)) as [a w]. cbn. now repeat split.
Qed.

Lemma alike_ctx_set (key : string) (value : ctx_value) :
  alike (ctx_set key value : M W unit) (ctx_set key value).
Proof. intros st1 st2 [Hs Hw]. unfold ctx_set. cbn. rewrite Hs. now repeat split. Qed.

Lemma alike_ctx_get_claim (key : string) :
  alike (ctx_get_claim key : M W ClaimInfo) (ctx_get_claim key).
Proof.
  intros st1 st2 [Hs Hw]. unfold ctx_get_claim. rewrite Hs.
  destruct (store st2 !! key) as [[c|t]|]; cbn; now repeat split.
Qed.

Lemma alike_lift {A} (o : outcome A) : alike (lift o : M W A) (lift o).
Proof. intros st1 st2 H. now split. Qed.

Create HintDb alike.
#[local] Hint Resolve alike_ret alike_trace alike_call alike_ctx_set
  alike_ctx_get_claim alike_lift : alike.

Ltac alike_steps :=
  repeat first
    [ apply alike_bind; [|intros ?]
    | solve [auto with alike]
    | match goal with
      | |- alike (match ?x with _ => _ end) (match ?x with _ => _ end) => destruct x
      end ].

Lemma alike_query_loop wf wf' (retriever : BaseRetriever W) (qs : list string) :
  forall acc, alike (query_loop wf retriever qs acc) (query_loop wf' retriever qs acc).
Proof.
  induction qs as [|q qs IH]; intros acc; cbn [query_loop]; alike_steps.
Qed.

(** Two workflows with the same retriever and the same model. *)
Variables (r : option (BaseRetriever W)) (model : option (LLM W)) (v1 v2 : bool).
Let wf1 : AutoInsuranceWorkflow W :=
  {| policy_retriever := r; llm := model; _verbose := v1 |}.
Let wf2 : AutoInsuranceWorkflow W :=
  {| policy_retriever := r; llm := model; _verbose := v2 |}.

Lemma alike_load_claim_info (fs : filesystem) (path : string) :
  alike (load_claim_info py wf1 fs path) (load_claim_info py wf2 fs path).
Proof. unfold load_claim_info. alike_steps. Qed.

Lemma alike_generate_policy_queries (claim_info : ClaimInfo) :
  alike (generate_policy_queries py wf1 claim_info)
        (generate_policy_queries py wf2 claim_info).
Proof. unfold generate_policy_queries. cbn [llm wf1 wf2]. alike_steps. Qed.

Lemma alike_retrieve_policy_text (qs : PolicyQueries) :
  alike (retrieve_policy_text wf1 qs) (retrieve_policy_text wf2 qs).
Proof.
  unfold retrieve_policy_text, collect_docs. cbn [policy_retriever wf1 wf2].
  alike_steps. all: try apply alike_query_loop.
Qed.

Lemma alike_generate_recommendation (policy_text : string) :
  alike (generate_recommendation py wf1 policy_text)
        (generate_recommendation py wf2 policy_text).
Proof. unfold generate_recommendation. cbn [llm wf1 wf2]. alike_steps. Qed.

Lemma alike_finalize_decision (rec : PolicyRecommendation) :
  alike (finalize_decision wf1 rec) (finalize_decision wf2 rec).
Proof. unfold finalize_decision. alike_steps. Qed.

Lemma alike_output_result (decision : ClaimDecision.t) :
  alike (output_result py wf1 decision) (output_result py wf2 decision).
Proof. unfold output_result. alike_steps. Qed.

Lemma alike_steps_of_run (fs : filesystem) (path : string) :
  alike (steps py wf1 fs path) (steps py wf2 fs path).
Proof.
  unfold steps.
  apply alike_bind; [apply alike_load_claim_info|intros claim_info].
  apply alike_bind; [apply alike_generate_policy_queries|intros qs].
  apply alike_bind; [apply alike_retrieve_policy_text|intros policy_text].
  apply alike_bind; [apply alike_generate_recommendation|intros recommendation].
  apply alike_bind; [apply alike_finalize_decision|intros decision].
  apply alike_output_result.
Qed.

End Tracing.

(** ** The retrieval step *)




(** The text of that retrieval. *)
Example retrieval_with_declarations_page :
  fst (retrieve_policy_text (init (Some counting_retriever) None false None)
         (_generate_fallback_queries scenario_a_claim) counting_state) =
    Ok ("last text of n1" +:+ newline +:+ newline +:+
        "page of declarations page for P-1") /\
  world (snd (retrieve_policy_text (init (Some counting_retriever) None false None)
                (_generate_fallback_queries scenario_a_claim) counting_state)) = 6.
Proof. split; vm_compute; reflexivity. Qed.

(** The sample retriever gives [n1], [n2] and [n1] again: the text has the
    last text of [n1] first, then the text of [n2]. *)
Example retrieval_of_sample_nodes :
  fst (retrieve_policy_text (init (Some sample_retriever) None false None)
         (_generate_fallback_queries scenario_a_claim) loaded_state) =
    Ok ("last text of n1" +:+ newline +:+ newline +:+ "text of n2").
Proof. vm_compute. reflexivity. Qed.

(** ** The run *)

Lemma init_without_model {W} (verbose : bool) :
  no_reasoner (init (W := W) None None verbose None).
Proof. now left. Qed.

(** C6: when the claim parses, the run returns a decision whatever the
    retriever and the model do; and when no model answers, because there
    is none or because it raises on every call, the decision is the one of
    the rule-based fallback, the same as that of a run without
    capabilities. *)
Theorem run_absorbs_capability_failures {W} (py : PyLib)
    (wf : AutoInsuranceWorkflow W) (fs : filesystem) (path : string)
    (claim_info : ClaimInfo) (w : W) :
  parse_claim py fs path = Ok claim_info ->
  (exists d st', run py wf fs path w = (Ok d, st')) /\
  (no_reasoner wf ->
   fst (run py wf fs path w) =
     Ok (make_decision claim_info
           (_generate_fallback_recommendation claim_info ""))) /\
  (no_reasoner wf ->
   forall (verbose : bool) (w0 : W),
     fst (run py wf fs path w) =
     fst (run py (init None None verbose None) fs path w0)).
Proof.
  intros Hparse.
  assert (Hrun : forall (wf' : AutoInsuranceWorkflow W) (w' : W),
             exists rec st',
               run py wf' fs path w' = (Ok (make_decision claim_info rec), st') /\
               (no_reasoner wf' ->
                rec = _generate_fallback_recommendation claim_info "")).
  { intros wf' w'. unfold run.
    destruct (steps_finish py wf' fs path claim_info
                {| stream := []; store := ∅; world := w' |} Hparse)
      as (rec & text & s & (w1 & st' & Hsteps & _) & Hfallback).
    exists rec, st'. split; [now rewrite Hsteps|].
    intros Hno. now rewrite (Hfallback Hno). }
  destruct (Hrun wf w) as (rec & st' & Hwf & Hrec).
  repeat split.
  - eauto.
  - intros Hno. now rewrite Hwf, (Hrec Hno).
  - intros Hno verbose w0.
    destruct (Hrun (init None None verbose None) w0) as (rec0 & st0 & Hwf0 & Hrec0).
    rewrite Hwf, Hwf0, (Hrec Hno), (Hrec0 (init_without_model verbose)).
    reflexivity.
Qed.

Lemma run_absorbs_capability_failures_witness :
  let wf := init (Some sample_retriever) (Some failing_llm) true None in
  (exists d st', run sample_lib wf sample_fs "a.json" tt = (Ok d, st')) /\
  (no_reasoner wf ->
   fst (run sample_lib wf sample_fs "a.json" tt) =
     Ok (make_decision scenario_a_claim
           (_generate_fallback_recommendation scenario_a_claim ""))) /\
  (no_reasoner wf ->
   forall (verbose : bool) (w0 : unit),
     fst (run sample_lib wf sample_fs "a.json" tt) =
     fst (run sample_lib (init None None verbose None) sample_fs "a.json" w0)).
Proof.
  apply (run_absorbs_capability_failures sample_lib
           (init (Some sample_retriever) (Some failing_llm) true None)
           sample_fs "a.json" scenario_a_claim tt).
  vm_compute. reflexivity.
Defined.

(** Scenario E: with a model that raises on every call (and a retriever)
    the run on the claim of scenario A returns the decision of scenario A,
    and the stream records the two fallbacks. *)
Example run_with_failing_model :
  no_reasoner (init (Some sample_retriever) (Some failing_llm) true None) /\
  fst (run sample_lib (init (Some sample_retriever) (Some failing_llm) true None)
         sample_fs "a.json" tt) =
    Ok {| ClaimDecision.claim_number := "C-1";
          ClaimDecision.covered := true;
          ClaimDecision.deductible := 500;
          ClaimDecision.recommended_payout := 4500;
          ClaimDecision.notes :=
            Some "Claim C-1 for $5000.00 damage is covered. Settlement: $4500.00 after $500.00 deductible." |} /\
  filter (fun m => bool_decide (contains "using fallback" m = true))
    (msg <$> stream (snd (run sample_lib
                            (init (Some sample_retriever) (Some failing_llm) true None)
                            sample_fs "a.json" tt))) =
    [ ">> LLM query generation failed, using fallback: service unavailable";
      ">> LLM recommendation failed, using fallback: service unavailable" ].
Proof.
  split; [|split; vm_compute; reflexivity].
  right. exists failing_llm. split; [reflexivity|].
  split; intros; eexists _, _; reflexivity.
Qed.

(** C9: a run that traces and a run that does not, with the same
    retriever and model on the same input and world, end with the same
    decision or the same exception, the same context and the same world. *)
Theorem verbose_does_not_change_outcome {W} (py : PyLib)
    (r : option (BaseRetriever W)) (model : option (LLM W))
    (fs : filesystem) (path : string) (w : W) :
  let loud := {| policy_retriever := r; llm := model; _verbose := true |} in
  let quiet := {| policy_retriever := r; llm := model; _verbose := false |} in
  fst (run py loud fs path w) = fst (run py quiet fs path w) /\
  store (snd (run py loud fs path w)) = store (snd (run py quiet fs path w)) /\
  world (snd (run py loud fs path w)) = world (snd (run py quiet fs path w)).
Proof.
  cbv zeta. unfold run.
  destruct (alike_steps_of_run py r model true false fs path
              {| stream := []; store := ∅; world := w |}
              {| stream := []; store := ∅; world := w |}) as (Hfst & Hs & Hw).
  - now split.
  - destruct (steps py _ fs path _) as [[d1|e1] st1],
      (steps py _ fs path _) as [[d2|e2] st2];
      cbn [fst snd] in *; try discriminate; repeat split; congruence.
Qed.

(** * Further properties *)

(** ** What a run raises *)

Section RunFailures.
Context {W : Type}.
Variable py : PyLib.
Implicit Types (st : RunState W) (wf : AutoInsuranceWorkflow W).

(** When [parse_claim] raises, step 1 raises the same exception before
    anything is stored or called. *)
Lemma load_claim_info_raises wf (fs : filesystem) (path : string) (e : exn) st :
  parse_claim py fs path = Raise e ->
  fst (load_claim_info py wf fs path st) = Raise e /\
  snd (load_claim_info py wf fs path st) = traced wf ">> Loading Claim Info" st.
Proof.
  intros Hparse. unfold load_claim_info. rewrite Hparse.
  rewrite bind_run, trace_run, bind_run. unfold lift. now cbn [fst snd].
Qed.

Lemma steps_raise wf (fs : filesystem) (path : string) (e : exn) st :
  parse_claim py fs path = Raise e ->
  fst (steps py wf fs path st) = Raise e /\
  snd (steps py wf fs path st) = traced wf ">> Loading Claim Info" st.
Proof.
  intros Hparse. unfold steps. rewrite bind_run.
  pose proof (load_claim_info_raises wf fs path e st Hparse) as H.
  destruct (load_claim_info py wf fs path st) as [[c|e'] st']; cbn [fst snd] in *.
  - destruct H as [H _]. discriminate.
  - destruct H as ([= ->] & Hst). now split.
Qed.

(** X1: the run raises exactly when [parse_claim] raises. What it raises
    is the [WorkflowRuntimeError] of the workflow, and its cause is the
    exception of [parse_claim], a [FileNotFoundError] or a [ValueError]
    that names the path. Nothing has been stored, no capability has been
    called, and a verbose run has written the one event that opens
    step 1. *)
Theorem run_raises_what_parse_raises wf (fs : filesystem) (path : string)
    (w : W) (e : exn) :
  (fst (run py wf fs path w) = Raise (WorkflowRuntimeError e) <->
   parse_claim py fs path = Raise e) /\
  (forall raised, fst (run py wf fs path w) = Raise raised ->
     exists cause,
       raised = WorkflowRuntimeError cause /\
       parse_claim py fs path = Raise cause /\
       (cause = FileNotFoundError path \/
        exists why, cause = ValueError path why)) /\
  (parse_claim py fs path = Raise e ->
   store (snd (run py wf fs path w)) = ∅ /\
   world (snd (run py wf fs path w)) = w /\
   stream (snd (run py wf fs path w)) =
     (if _verbose wf then [{| msg := ">> Loading Claim Info"; delta := false |}]
      else [])).
Proof.
  set (st0 := {| stream := []; store := ∅; world := w |}).
  assert (Hrun : forall cause, parse_claim py fs path = Raise cause ->
            run py wf fs path w =
              (Raise (WorkflowRuntimeError cause),
               traced wf ">> Loading Claim Info" st0)).
  { intros cause H. unfold run. fold st0.
    destruct (steps_raise wf fs path cause st0 H) as [Hfst Hsnd].
    destruct (steps py wf fs path st0) as [o st]. cbn [fst snd] in *.
    now subst. }
  assert (Hkind : forall cause, parse_claim py fs path = Raise cause ->
            cause = FileNotFoundError path \/
            exists why, cause = ValueError path why).
  { intros cause Hparse. unfold parse_claim in Hparse.
    destruct (fs !! path) as [[m|[| | | | |data]]|];
      try (injection Hparse as <-; eauto).
    destruct (model_validate py (rename_legacy data)); [discriminate|].
    injection Hparse as <-. eauto. }
  assert (Hcause : forall raised, fst (run py wf fs path w) = Raise raised ->
            exists cause, raised = WorkflowRuntimeError cause /\
                          parse_claim py fs path = Raise cause).
  { intros raised Hraised.
    destruct (parse_claim py fs path) as [c|cause] eqn:Hparse.
    - destruct (steps_finish py wf fs path c st0 Hparse)
        as (rec & text & s & (w' & st' & Hsteps & _) & _).
      unfold run in Hraised. fold st0 in Hraised. rewrite Hsteps in Hraised.
      discriminate.
    - rewrite (Hrun cause eq_refl) in Hraised. injection Hraised as <-. eauto. }
  split; [split|split].
  - intros Hraised. destruct (Hcause _ Hraised) as (cause & [= ->] & Hparse).
    exact Hparse.
  - intros Hparse. now rewrite (Hrun e Hparse).
  - intros raised Hraised. destruct (Hcause _ Hraised) as (cause & -> & Hparse).
    exists cause. auto.
  - intros Hparse. rewrite (Hrun e Hparse). cbn [snd].
    rewrite traced_store, traced_world. unfold traced.
    repeat split. now destruct (_verbose wf).
Qed.

End RunFailures.

(** ** The event stream *)

Section Stream.
Context {W : Type}.
Variable py : PyLib.
Implicit Types (st : RunState W) (wf : AutoInsuranceWorkflow W).

(** A computation that only ever adds events at the end of the stream,
    all of them with [delta] false, and adds none when [quiet] holds. *)
Definition appends (quiet : bool) {A} (m : M W A) : Prop :=
  forall st, exists events,
    stream (snd (m st)) = stream st ++ events /\
    Forall (fun ev => delta ev = false) events /\
    (quiet = true -> events = []).

Lemma appends_ret quiet {A} (a : A) : appends quiet (mret a : M W A).
Proof. intros st. exists []. cbn. now rewrite app_nil_r. Qed.

Lemma appends_bind quiet {A B} (m : M W A) (k : A -> M W B) :
  appends quiet m -> (forall a, appends quiet (k a)) -> appends quiet (m ≫= k).
Proof.
  intros Hm Hk st. rewrite bind_run.
  destruct (Hm st) as (ev1 & H1 & Hd1 & Hq1).
  destruct (m st) as [[a|e] st1]; cbn [snd] in *.
  - destruct (Hk a st1) as (ev2 & H2 & Hd2 & Hq2).
    exists (ev1 ++ ev2). rewrite H2, H1, app_assoc. split; [reflexivity|].
    split; [now apply Forall_app|].
    intros Hq. now rewrite Hq1, Hq2.
  - exists ev1. auto.
Qed.

Lemma appends_trace wf (message : string) :
  appends (negb (_verbose wf)) (trace wf message).
Proof.
  intros st. rewrite trace_run. unfold traced. cbn [snd].
  destruct (_verbose wf); cbn [stream negb].
  - eexists. split; [reflexivity|]. split; [|discriminate].
    now repeat constructor.
  - exists []. now rewrite app_nil_r.
Qed.

Lemma appends_call quiet {A} (f : W -> A * W) : appends quiet (call f).
Proof.
  intros st. exists []. unfold call. destruct (f (world st)). cbn.
  now rewrite app_nil_r.
Qed.

Lemma appends_ctx_set quiet (key : string) (value : ctx_value) :
  appends quiet (ctx_set key value : M W unit).
Proof. intros st. exists []. cbn. now rewrite app_nil_r. Qed.

Lemma appends_ctx_get_claim quiet (key : string) :
  appends quiet (ctx_get_claim key : M W ClaimInfo).
Proof.
  intros st. exists []. unfold ctx_get_claim.
  destruct (store st !! key) as [[c|t]|]; cbn; now rewrite app_nil_r.
Qed.

Lemma appends_lift quiet {A} (o : outcome A) : appends quiet (lift o : M W A).
Proof. intros st. exists []. cbn. now rewrite app_nil_r. Qed.

Create HintDb appends.
#[local] Hint Resolve appends_ret appends_trace appends_call appends_ctx_set
  appends_ctx_get_claim appends_lift : appends.

Ltac appends_steps :=
  repeat first
    [ apply appends_bind; [|intros ?]
    | solve [auto with appends]
    | match goal with
      | |- appends _ (match ?x with _ => _ end) => destruct x
      end ].

Lemma appends_query_loop wf (r : BaseRetriever W) (qs : list string) :
  forall acc, appends (negb (_verbose wf)) (query_loop wf r qs acc).
Proof.
  induction qs as [|q qs IH]; intros acc; cbn [query_loop]; appends_steps.
Qed.

Lemma appends_load_claim_info wf (fs : filesystem) (path : string) :
  appends (negb (_verbose wf)) (load_claim_info py wf fs path).
Proof. unfold load_claim_info. appends_steps. Qed.

Lemma appends_generate_policy_queries wf (claim_info : ClaimInfo) :
  appends (negb (_verbose wf)) (generate_policy_queries py wf claim_info).
Proof. unfold generate_policy_queries. appends_steps. Qed.

Lemma appends_retrieve_policy_text wf (qs : PolicyQueries) :
  appends (negb (_verbose wf)) (retrieve_policy_text wf qs).
Proof.
  unfold retrieve_policy_text, collect_docs. appends_steps.
  all: try apply appends_query_loop.
Qed.

Lemma appends_generate_recommendation wf (policy_text : string) :
  appends (negb (_verbose wf)) (generate_recommendation py wf policy_text).
Proof. unfold generate_recommendation. appends_steps. Qed.

Lemma appends_finalize_decision wf (rec : PolicyRecommendation) :
  appends (negb (_verbose wf)) (finalize_decision wf rec).
Proof. unfold finalize_decision. appends_steps. Qed.

Lemma appends_output_result wf (decision : ClaimDecision.t) :
  appends (negb (_verbose wf)) (output_result py wf decision).
Proof. unfold output_result. appends_steps. Qed.

Lemma appends_steps_of_run wf (fs : filesystem) (path : string) :
  appends (negb (_verbose wf)) (steps py wf fs path).
Proof.
  unfold steps.
  apply appends_bind; [apply appends_load_claim_info|intros claim_info].
  apply appends_bind; [apply appends_generate_policy_queries|intros qs].
  apply appends_bind; [apply appends_retrieve_policy_text|intros policy_text].
  apply appends_bind; [apply appends_generate_recommendation|intros recommendation].
  apply appends_bind; [apply appends_finalize_decision|intros decision].
  apply appends_output_result.
Qed.

(** X2: the steps only add events at the end of the stream, each with
    [delta] false, and add none when the workflow is not verbose. *)
Theorem stream_is_append_only wf (fs : filesystem) (path : string) st :
  exists events,
    stream (snd (steps py wf fs path st)) = stream st ++ events /\
    Forall (fun ev => delta ev = false) events /\
    (_verbose wf = false -> events = []).
Proof.
  destruct (appends_steps_of_run wf fs path st) as (events & H & Hd & Hq).
  exists events. repeat split; try assumption.
  intros Hv. apply Hq. now rewrite Hv.
Qed.

End Stream.

Section Anatomy.
Context {W : Type}.
Variable py : PyLib.
Implicit Types (st : RunState W) (wf : AutoInsuranceWorkflow W).

(** A successful run, step by step: the states between the steps and
    what each step returned. *)
Record anatomy := {
  a_claim : ClaimInfo;
  a_queries : PolicyQueries;
  a_text : string;
  a_recommendation : PolicyRecommendation;
  a_loaded : RunState W;
  a_queried : RunState W;
  a_retrieved : RunState W;
  a_recommended : RunState W;
  a_finalized : RunState W;
  a_final : RunState W;
}.

Definition anatomy_of wf (fs : filesystem) (path : string) st (a : anatomy)
  : Prop :=
  load_claim_info py wf fs path st = (Ok (a_claim a), a_loaded a) /\
  generate_policy_queries py wf (a_claim a) (a_loaded a) =
    (Ok (a_queries a), a_queried a) /\
  retrieve_policy_text wf (a_queries a) (a_queried a) =
    (Ok (a_text a), a_retrieved a) /\
  generate_recommendation py wf (a_text a) (a_retrieved a) =
    (Ok (a_recommendation a), a_recommended a) /\
  finalize_decision wf (a_recommendation a) (a_recommended a) =
    (Ok (make_decision (a_claim a) (a_recommendation a)), a_finalized a) /\
  output_result py wf (make_decision (a_claim a) (a_recommendation a))
    (a_finalized a) =
    (Ok (make_decision (a_claim a) (a_recommendation a)), a_final a) /\
  steps py wf fs path st =
    (Ok (make_decision (a_claim a) (a_recommendation a)), a_final a) /\
  a_text a =
    evidence_text (add_docs [] (run_nodes wf (a_queries a) (a_claim a)
                                  (world (a_queried a)))) (a_claim a) /\
  store (a_loaded a) = <["claim_info" := CtxClaim (a_claim a)]> (store st) /\
  store (a_queried a) = store (a_loaded a) /\
  store (a_retrieved a) = <["policy_text" := CtxText (a_text a)]> (store (a_queried a)) /\
  store (a_final a) = store (a_retrieved a).

Lemma run_anatomy wf (fs : filesystem) (path : string) (claim_info : ClaimInfo) st :
  parse_claim py fs path = Ok claim_info ->
  exists a, a_claim a = claim_info /\ anatomy_of wf fs path st a.
Proof.
  intros Hparse.
  destruct (load_claim_info_finishes py wf fs path claim_info st Hparse)
    as (w1 & st1 & Hload & Hs1 & Hw1).
  destruct (generate_policy_queries_finishes py wf claim_info st1)
    as (qs & w2 & st2 & Hqs & Hs2 & Hw2).
  assert (Hctx2 : store st2 !! "claim_info" = Some (CtxClaim claim_info)).
  { rewrite Hs2, Hs1. apply lookup_insert_eq. }
  destruct (retrieve_policy_text_finishes wf qs claim_info st2 Hctx2)
    as (w3 & st3 & Htext & Hs3 & Hw3).
  set (text := evidence_text (add_docs [] (run_nodes wf qs claim_info (world st2)))
                 claim_info) in *.
  assert (Hctx3 : store st3 !! "claim_info" = Some (CtxClaim claim_info)).
  { rewrite Hs3. now rewrite lookup_insert_ne. }
  destruct (generate_recommendation_finishes py wf text claim_info st3 Hctx3)
    as (rec & (w4 & st4 & Hrec & Hs4 & Hw4) & _).
  assert (Hctx4 : store st4 !! "claim_info" = Some (CtxClaim claim_info)).
  { now rewrite Hs4. }
  destruct (finalize_decision_finishes wf rec claim_info st4 Hctx4)
    as (w5 & st5 & Hfin & Hs5 & Hw5).
  destruct (output_result_finishes py wf (make_decision claim_info rec) st5)
    as (w6 & st6 & Hout & Hs6 & Hw6).
  exists {| a_claim := claim_info; a_queries := qs; a_text := text;
            a_recommendation := rec; a_loaded := st1; a_queried := st2;
            a_retrieved := st3; a_recommended := st4; a_finalized := st5;
            a_final := st6 |}.
  split; [reflexivity|]. unfold anatomy_of. cbn.
  repeat split; try assumption; try congruence.
  unfold steps.
  now rewrite bind_run, Hload, bind_run, Hqs, bind_run, Htext, bind_run, Hrec,
    bind_run, Hfin.
Qed.

End Anatomy.

(** ** Evaluating the steps *)

Definition notice (message : string) : LogEvent :=
  {| msg := message; delta := false |}.

Lemma call_run {W A} (f : W -> A * W) (st : RunState W) :
  call f st =
    (Ok (f (world st)).1,
     {| stream := stream st; store := store st; world := (f (world st)).2 |}).
Proof. unfold call. now destruct (f (world st)). Qed.

Lemma ret_run {W A} (a : A) (st : RunState W) : (mret a : M W A) st = (Ok a, st).
Proof. reflexivity. Qed.

Lemma ctx_set_run {W} (key : string) (value : ctx_value) (st : RunState W) :
  ctx_set key value st =
    (Ok tt, {| stream := stream st; store := <[key := value]> (store st);
               world := world st |}).
Proof. reflexivity. Qed.

Ltac run_steps :=
  repeat first
    [ progress cbn [fst snd world store stream]
    | rewrite bind_run | rewrite trace_run | rewrite call_run
    | rewrite ctx_set_run | rewrite traced_world | rewrite ret_run ].

(** ** What the model's answers do to a run *)

Section Models.
Context {W : Type}.
Variable py : PyLib.
Implicit Types (st : RunState W) (wf : AutoInsuranceWorkflow W).

(** Step 2 with a model, by what the model does in the world it is
    called in. *)
Lemma generate_policy_queries_with_model wf (model : LLM W)
    (claim_info : ClaimInfo) st :
  llm wf = Some model ->
  match fst (astructured_predict_queries model GENERATE_POLICY_QUERIES_PROMPT
               (claim_dump_json py claim_info) (world st)) with
  | Returns qs => fst (generate_policy_queries py wf claim_info st) = Ok qs
  | Throws e =>
      fst (generate_policy_queries py wf claim_info st) =
        Ok (_generate_fallback_queries claim_info) /\
      (_verbose wf = true ->
       notice (">> LLM query generation failed, using fallback: " +:+ e)
         ∈ stream (snd (generate_policy_queries py wf claim_info st)))
  end.
Proof.
  intros Hllm. unfold generate_policy_queries. rewrite Hllm.
  destruct (astructured_predict_queries model GENERATE_POLICY_QUERIES_PROMPT
              (claim_dump_json py claim_info) (world st)) as [[qs|e] w1] eqn:Hcall;
    cbn [fst]; run_steps; rewrite Hcall; run_steps; [reflexivity|].
  split; [reflexivity|].
  intros Hv. unfold traced. rewrite Hv. cbn [stream].
  rewrite !elem_of_app, !list_elem_of_singleton. unfold notice. tauto.
Qed.

(** Step 4 with a model, likewise. *)
Lemma generate_recommendation_with_model wf (model : LLM W)
    (policy_text : string) (claim_info : ClaimInfo) st :
  llm wf = Some model ->
  store st !! "claim_info" = Some (CtxClaim claim_info) ->
  match fst (astructured_predict_recommendation model POLICY_RECOMMENDATION_PROMPT
               (claim_dump_json py claim_info) policy_text (world st)) with
  | Returns rec => fst (generate_recommendation py wf policy_text st) = Ok rec
  | Throws e =>
      fst (generate_recommendation py wf policy_text st) =
        Ok (_generate_fallback_recommendation claim_info policy_text) /\
      (_verbose wf = true ->
       notice (">> LLM recommendation failed, using fallback: " +:+ e)
         ∈ stream (snd (generate_recommendation py wf policy_text st)))
  end.
Proof.
  intros Hllm Hctx. unfold generate_recommendation. rewrite Hllm.
  destruct (astructured_predict_recommendation model POLICY_RECOMMENDATION_PROMPT
              (claim_dump_json py claim_info) policy_text (world st))
    as [[rec|e] w1] eqn:Hcall;
    cbn [fst]; run_steps; unfold ctx_get_claim; rewrite traced_store, Hctx;
    run_steps; rewrite Hcall; run_steps; [reflexivity|].
  split; [reflexivity|].
  intros Hv. unfold traced. rewrite Hv. cbn [stream].
  rewrite !elem_of_app, !list_elem_of_singleton. unfold notice. tauto.
Qed.

(** X4: when the model answers every recommendation request with [rec],
    the decision of the run is made from [rec], whatever the queries and
    the retriever brought. *)
Theorem model_recommendation_decides wf (model : LLM W) (fs : filesystem)
    (path : string) (claim_info : ClaimInfo) (rec : PolicyRecommendation) (w : W) :
  parse_claim py fs path = Ok claim_info ->
  llm wf = Some model ->
  (forall prompt claim text w0,
      fst (astructured_predict_recommendation model prompt claim text w0) =
        Returns rec) ->
  fst (run py wf fs path w) = Ok (make_decision claim_info rec).
Proof.
  intros Hparse Hllm Hrec.
  destruct (run_anatomy py wf fs path claim_info
              {| stream := []; store := ∅; world := w |} Hparse)
    as (a & Ha & _ & _ & _ & Hstep & _ & _ & Hsteps & _ & Hs1 & Hs2 & Hs3 & _).
  unfold run. rewrite Hsteps. cbn [fst]. rewrite Ha.
  assert (Hctx : store (a_retrieved a) !! "claim_info" = Some (CtxClaim claim_info)).
  { rewrite Hs3, lookup_insert_ne by discriminate.
    rewrite Hs2, Hs1, Ha. apply lookup_insert_eq. }
  pose proof (generate_recommendation_with_model wf model (a_text a) claim_info
                (a_retrieved a) Hllm Hctx) as Hmodel.
  rewrite Hrec, Hstep in Hmodel. cbn [fst] in Hmodel.
  now injection Hmodel as ->.
Qed.

End Models.

(** ** The decision of the rule-based path *)

Lemma lower_app (a b : string) : lower (a +:+ b) = lower a +:+ lower b.
Proof. induction a as [|c a IH]; simpl; [reflexivity | now rewrite IH]. Qed.

Lemma prefix_app (needle a b : string) :
  String.prefix needle a = true -> String.prefix needle (a +:+ b) = true.
Proof.
  revert a. induction needle as [|c needle IH]; intros a H.
  - now destruct (a +:+ b).
  - destruct a as [|c' a]; [discriminate|].
    change (String c' a +:+ b) with (String c' (a +:+ b)).
    cbn [String.prefix] in *.
    destruct (Ascii.ascii_dec c c'); [now apply IH|discriminate].
Qed.

Lemma contains_prefix (needle s : string) :
  String.prefix needle s = true -> contains needle s = true.
Proof. destruct s; cbn [contains]; now intros ->. Qed.

Lemma contains_app_l (needle a b : string) :
  contains needle a = true -> contains needle (a +:+ b) = true.
Proof.
  induction a as [|c a IH]; cbn [contains]; intros H.
  - rewrite orb_false_r in H. apply contains_prefix.
    exact (prefix_app needle "" b H).
  - apply orb_true_iff in H as [H|H].
    + apply contains_prefix. now apply prefix_app.
    + change (String c a +:+ b) with (String c (a +:+ b)).
      cbn [contains]. rewrite (IH H). apply orb_true_r.
Qed.

Lemma contains_app_r (needle a b : string) :
  contains needle b = true -> contains needle (a +:+ b) = true.
Proof.
  intros Hb. induction a as [|c a IH]; [exact Hb|].
  change (String c a +:+ b) with (String c (a +:+ b)).
  cbn [contains]. rewrite IH. apply orb_true_r.
Qed.

Lemma positive_is_truthy (x : float) : PrimFloat.ltb 0 x = true -> truthy x = true.
Proof.
  unfold truthy. intros H. rewrite FloatAxioms.ltb_spec in H. rewrite FloatAxioms.eqb_spec.
  change (Prim2SF 0) with (S754_zero false) in *. unfold SFltb, SFeqb in *.
  destruct (Prim2SF x) as [[]|[]| |[] m e]; cbn in *; congruence.
Qed.

(** The decision that [make_decision] takes from the fallback
    recommendation, by the three cases of the fallback rule. *)
Lemma fallback_decision (claim_info : ClaimInfo) (policy_text : string) :
  let cost := estimated_repair_cost claim_info in
  let d := make_decision claim_info
             (_generate_fallback_recommendation claim_info policy_text) in
  ClaimDecision.claim_number d = claim_number claim_info /\
  ClaimDecision.deductible d = 500%float /\
  ClaimDecision.notes d = Some (fallback_summary claim_info) /\
  (PrimFloat.ltb cost 15000 = false ->
   ClaimDecision.covered d = false /\ ClaimDecision.recommended_payout d = 0%float) /\
  (PrimFloat.ltb cost 15000 = true -> PrimFloat.ltb 0 (cost - 500) = true ->
   ClaimDecision.covered d = true /\
   ClaimDecision.recommended_payout d = (cost - 500)%float) /\
  (PrimFloat.ltb cost 15000 = true -> PrimFloat.ltb 0 (cost - 500) = false ->
   ClaimDecision.recommended_payout d = 0%float /\
   ClaimDecision.covered d =
     negb (contains "not covered" (lower (fallback_summary claim_info)))).
Proof.
  cbv zeta. repeat split.
  - cbn. unfold decide_covered. cbn [recommendation_summary settlement_amount
      _generate_fallback_recommendation].
    unfold fallback_summary, fallback_settlement, fallback_covered. rewrite H.
    change (PrimFloat.ltb 0 0) with false. rewrite orb_false_r.
    rewrite lower_app, (contains_app_r "not covered"); [|reflexivity].
    now rewrite andb_false_r.
  - cbn. unfold fallback_settlement, fallback_covered. now rewrite H.
  - cbn. unfold decide_covered. cbn [settlement_amount
      _generate_fallback_recommendation].
    unfold fallback_settlement, fallback_covered, max0, fallback_deductible.
    rewrite H, H0, H0. apply orb_true_r.
  - cbn. unfold fallback_settlement, fallback_covered, max0, fallback_deductible.
    rewrite H, H0. now rewrite positive_is_truthy.
  - cbn. unfold fallback_settlement, fallback_covered, max0, fallback_deductible.
    now rewrite H, H0.
  - cbn. unfold decide_covered. cbn [recommendation_summary settlement_amount
      _generate_fallback_recommendation].
    unfold fallback_summary, fallback_settlement, fallback_covered, max0,
      fallback_deductible.
    rewrite H, H0. change (PrimFloat.ltb 0 0) with false. rewrite orb_false_r.
    set (s := lower _).
    replace (contains "covered" s) with true; [reflexivity|].
    symmetry. subst s. rewrite lower_app. apply contains_app_r.
    rewrite lower_app. now apply contains_app_l.
Qed.

Section RuleBased.
Context {W : Type}.
Variable py : PyLib.
Implicit Types (wf : AutoInsuranceWorkflow W).

Lemma rule_based_run wf (fs : filesystem) (path : string) (claim_info : ClaimInfo)
    (w : W) :
  parse_claim py fs path = Ok claim_info ->
  no_reasoner wf ->
  exists text,
    fst (run py wf fs path w) =
      Ok (make_decision claim_info
            (_generate_fallback_recommendation claim_info text)).
Proof.
  intros Hparse Hno. unfold run.
  destruct (steps_finish py wf fs path claim_info
              {| stream := []; store := ∅; world := w |} Hparse)
    as (rec & text & s & (w1 & st' & Hsteps & _) & Hfallback).
  exists text. now rewrite Hsteps, (Hfallback Hno).
Qed.

(** X6: when no model answers, the decision of a run follows the cost
    alone: deductible 500 in every case; not covered with payout 0 when
    the cost is not below 15000; covered with payout [cost - 500] when the
    cost is below 15000 and above 500; payout 0 when the cost is at most
    500. *)
Theorem rule_based_decision wf (fs : filesystem) (path : string)
    (claim_info : ClaimInfo) (w : W) :
  parse_claim py fs path = Ok claim_info ->
  no_reasoner wf ->
  let cost := estimated_repair_cost claim_info in
  exists d,
    fst (run py wf fs path w) = Ok d /\
    ClaimDecision.claim_number d = claim_number claim_info /\
    ClaimDecision.deductible d = 500%float /\
    (PrimFloat.ltb cost 15000 = false ->
     ClaimDecision.covered d = false /\
     ClaimDecision.recommended_payout d = 0%float) /\
    (PrimFloat.ltb cost 15000 = true -> PrimFloat.ltb 0 (cost - 500) = true ->
     ClaimDecision.covered d = true /\
     ClaimDecision.recommended_payout d = (cost - 500)%float) /\
    (PrimFloat.ltb cost 15000 = true -> PrimFloat.ltb 0 (cost - 500) = false ->
     ClaimDecision.recommended_payout d = 0%float).
Proof.
  intros Hparse Hno cost.
  destruct (rule_based_run wf fs path claim_info w Hparse Hno) as [text Hrun].
  destruct (fallback_decision claim_info text) as (H1 & H2 & _ & H4 & H5 & H6).
  eexists. split; [exact Hrun|].
  repeat split; try assumption; try (now apply H4); try (now apply H5).
  intros Ha Hb. now apply H6.
Qed.

(** X7: the claim number is part of the text that [finalize_decision]
    searches. When no model answers and the cost is at most 500, so that
    the fallback covers the claim with a settlement of 0, the decision is
    covered exactly when the lower-cased summary does not contain
    "not covered"; a claim number that contains these words makes the
    decision not covered although the summary says the claim is covered. *)
Theorem claim_number_can_deny_cover wf (fs : filesystem) (path : string)
    (claim_info : ClaimInfo) (w : W) :
  parse_claim py fs path = Ok claim_info ->
  no_reasoner wf ->
  PrimFloat.ltb (estimated_repair_cost claim_info) 15000 = true ->
  PrimFloat.ltb 0 (estimated_repair_cost claim_info - 500) = false ->
  exists d,
    fst (run py wf fs path w) = Ok d /\
    ClaimDecision.notes d = Some (fallback_summary claim_info) /\
    contains " is covered." (fallback_summary claim_info) = true /\
    ClaimDecision.covered d =
      negb (contains "not covered" (lower (fallback_summary claim_info))) /\
    (contains "not covered" (lower (claim_number claim_info)) = true ->
     ClaimDecision.covered d = false).
Proof.
  intros Hparse Hno Hlimit Hsmall.
  destruct (rule_based_run wf fs path claim_info w Hparse Hno) as [text Hrun].
  destruct (fallback_decision claim_info text) as (_ & _ & H3 & _ & _ & H6).
  destruct (H6 Hlimit Hsmall) as [_ Hcov].
  eexists. split; [exact Hrun|]. split; [exact H3|].
  assert (Hsummary : fallback_summary claim_info =
            ("Claim " +:+ claim_number claim_info +:+ " for $" +:+
             format_2f (estimated_repair_cost claim_info) +:+ " damage") +:+
            " is covered. Settlement: $" +:+
            format_2f (fallback_settlement claim_info) +:+ " after $" +:+
            format_2f fallback_deductible +:+ " deductible.").
  { unfold fallback_summary, fallback_covered. now rewrite Hlimit. }
  repeat split.
  - rewrite Hsummary. apply contains_app_r. now apply contains_app_l.
  - exact Hcov.
  - intros Hnumber. rewrite Hcov, Hsummary.
    rewrite lower_app. rewrite (contains_app_l "not covered"); [reflexivity|].
    rewrite lower_app. apply contains_app_r.
    rewrite lower_app. now apply contains_app_l.
Qed.

End RuleBased.

(** ** Retrieval *)

Section Retrieval.
Context {W : Type}.
Implicit Types (st : RunState W) (wf : AutoInsuranceWorkflow W)
  (r : BaseRetriever W).

Lemma query_results_failure r (qs1 qs2 : list string) (q e : string)
    (docs : list NodeWithScore) (w w1 w2 : W) :
  query_results r qs1 w = (docs, None, w1) ->
  fetch r q w1 = (Throws e, w2) ->
  query_results r (qs1 ++ q :: qs2) w = (docs, Some e, w2).
Proof.
  revert docs w w1. induction qs1 as [|q1 qs1 IH]; intros docs w w1 Hres Hfetch.
  - cbn in Hres. injection Hres as <- <-. cbn. now rewrite Hfetch.
  - cbn [query_results app] in *.
    destruct (fetch r q1 w) as [[d1|e1] w'] eqn:Hq1; [|discriminate].
    destruct (query_results r qs1 w') as [[rest failure] w''] eqn:Hrest.
    injection Hres as <- -> <-.
    now rewrite (IH rest w' _ Hrest Hfetch).
Qed.

(** X8: when the retrieval for a query raises, the evidence text is made
    of the nodes of the queries before it; no later query and no
    declarations page is requested, so the world is left as the failing
    call left it; a verbose run records the failure. *)
Theorem retrieval_stops_at_first_failure wf r (qs1 qs2 : list string)
    (q e : string) (claim_info : ClaimInfo) (docs : list NodeWithScore)
    (w1 w2 : W) st :
  policy_retriever wf = Some r ->
  store st !! "claim_info" = Some (CtxClaim claim_info) ->
  query_results r qs1 (world st) = (docs, None, w1) ->
  fetch r q w1 = (Throws e, w2) ->
  exists st',
    retrieve_policy_text wf {| queries := qs1 ++ q :: qs2 |} st =
      (Ok (evidence_text (add_docs [] docs) claim_info), st') /\
    world st' = w2 /\
    (_verbose wf = true ->
     notice (">> Policy retrieval failed: " +:+ e) ∈ stream st').
Proof.
  intros Hr Hctx Hres Hfetch.
  pose proof (query_results_failure r qs1 qs2 q e docs _ _ _ Hres Hfetch) as Hall.
  unfold retrieve_policy_text. rewrite Hr. cbn [queries].
  rewrite bind_run, trace_run, bind_run. unfold ctx_get_claim at 1.
  rewrite traced_store, Hctx. unfold collect_docs. rewrite !bind_run.
  destruct (query_loop_returns wf r (qs1 ++ q :: qs2) []
              (traced wf ">> Retrieving policy sections" st))
    as (st1 & Hloop & Hs1 & Hw1).
  rewrite traced_world, Hall in Hloop, Hw1. cbn [fst snd] in Hloop, Hw1.
  rewrite Hloop. run_steps.
  eexists. split; [reflexivity|]. cbn [snd world stream].
  split; [now rewrite traced_world|].
  intros Hv. unfold traced. rewrite Hv. cbn [stream].
  rewrite !elem_of_app, !list_elem_of_singleton. unfold notice. tauto.
Qed.

Lemma dict_set_length {V} (k : string) (v : V) (d : list (string * V)) :
  length (dict_set k v d) <= S (length d).
Proof.
  induction d as [|[k' v'] d IH]; cbn [dict_set length]; [lia|].
  destruct (decide (k = k')); cbn [length]; lia.
Qed.

Lemma add_docs_length (docs : list NodeWithScore) :
  forall acc : list (string * NodeWithScore),
    length (add_docs acc docs) <= length acc + length docs.
Proof.
  induction docs as [|d docs IH]; intros acc; [cbn; lia|].
  rewrite add_docs_cons. specialize (IH (dict_set (id_ d) d acc)).
  pose proof (dict_set_length (id_ d) d acc). cbn [length]. lia.
Qed.

(** X9: [get_declarations_docs] never raises and gives at most [top_k]
    nodes, the first ones the retriever returned for the declarations
    query with the policy-number filter; it gives none when the retriever
    has no [retrieve] method or the call raises; so the workflow, which
    asks for one, adds at most one entry to the dictionary. *)
Theorem declarations_docs_bounded r (policy_number : string) (top_k : nat)
    (w : W) :
  length (get_declarations_docs r policy_number top_k w).1 <= top_k /\
  (retrieve r = None -> get_declarations_docs r policy_number top_k w = ([], w)) /\
  (forall g, retrieve r = Some g ->
     get_declarations_docs r policy_number top_k w =
       (match (g ("declarations page for " +:+ policy_number)
                 (Some [("policy_number", policy_number)]) w).1 with
        | Returns docs => take top_k docs
        | Throws _ => []
        end,
        (g ("declarations page for " +:+ policy_number)
           (Some [("policy_number", policy_number)]) w).2)) /\
  (forall acc : list (string * NodeWithScore),
     length (add_docs acc (get_declarations_docs r policy_number 1 w).1)
       <= S (length acc)).
Proof.
  assert (Hlen : forall k, length (get_declarations_docs r policy_number k w).1 <= k).
  { intros k. unfold get_declarations_docs.
    destruct (retrieve r) as [g|]; [|cbn; lia].
    destruct (g _ _ w) as [[docs|e] w']; cbn [fst length]; [|lia].
    rewrite length_take. lia. }
  repeat split.
  - apply Hlen.
  - intros Hnone. unfold get_declarations_docs. now rewrite Hnone.
  - intros g Hg. unfold get_declarations_docs. rewrite Hg.
    now destruct (g _ _ w) as [[docs|e] w'].
  - intros acc.
    pose proof (add_docs_length (get_declarations_docs r policy_number 1 w).1 acc).
    specialize (Hlen 1). lia.
Qed.

End Retrieval.

(** ** More on [parse_claim] *)

Lemma rename_key_absent (legacy canonical : string) (data : gmap string json) :
  data !! legacy = None -> rename_key legacy canonical data = data.
Proof. intros H. unfold rename_key. now rewrite H. Qed.

(** An input without legacy keys is validated as it is. *)
Lemma rename_legacy_canonical (data : gmap string json) :
  (forall legacy, legacy ∈ rename_table.*1 -> data !! legacy = None) ->
  rename_legacy data = data.
Proof.
  intros H. rewrite rename_legacy_unfold.
  rewrite (rename_key_absent "damage_amount") by (apply H; cbn; set_solver).
  rewrite (rename_key_absent "policyholder_name") by (apply H; cbn; set_solver).
  rewrite (rename_key_absent "date_of_incident") by (apply H; cbn; set_solver).
  now rewrite (rename_key_absent "description") by (apply H; cbn; set_solver).
Qed.

Lemma rename_legacy_idempotent (data : gmap string json) :
  rename_legacy (rename_legacy data) = rename_legacy data.
Proof.
  apply rename_legacy_canonical. intros legacy Hin.
  apply list_elem_of_fmap in Hin as ([l c] & -> & Hin).
  now apply (rename_legacy_pair data l c).
Qed.

(** X10: renaming is idempotent, so a file that holds the renamed mapping
    parses to the same result as the file itself; and an input that uses
    the canonical names only is validated as it is. *)
Theorem parse_claim_of_renamed_input (py : PyLib) (fs : filesystem)
    (path : string) (data : gmap string json) :
  fs !! path = Some (Holds (JObj data)) ->
  parse_claim py (<[path := Holds (JObj (rename_legacy data))]> fs) path =
    parse_claim py fs path /\
  ((forall legacy, legacy ∈ rename_table.*1 -> data !! legacy = None) ->
   rename_legacy data = data).
Proof.
  intros Hfs. split; [|apply rename_legacy_canonical].
  rewrite (parse_claim_holds py fs path data Hfs).
  rewrite (parse_claim_holds py _ path (rename_legacy data))
    by apply lookup_insert_eq.
  now rewrite rename_legacy_idempotent.
Qed.

(** The names of the fields of [ClaimInfo]. *)
Definition claim_fields : list string :=
  required_text_fields ++ ["estimated_repair_cost"; "vehicle_details"].

Lemma rename_legacy_insert_other (data : gmap string json) (k f : string)
    (v : json) :
  f <> k -> k ∉ rename_table.*1 ->
  rename_legacy (<[k := v]> data) !! f = rename_legacy data !! f.
Proof.
  intros Hf Hk. cbn in Hk. rewrite !not_elem_of_cons in Hk.
  destruct Hk as (? & ? & ? & ? & _).
  rewrite !rename_legacy_unfold, !lookup_rename_key.
  rewrite !lookup_insert_ne by congruence. reflexivity.
Qed.

(** X11: a key that is neither a field of the claim nor a legacy alias
    does not matter: with or without it, [parse_claim] gives the same
    result. *)
Theorem parse_claim_ignores_other_keys (py : PyLib) (fs : filesystem)
    (path k : string) (v : json) (data : gmap string json) :
  fs !! path = Some (Holds (JObj data)) ->
  k ∉ claim_fields -> k ∉ rename_table.*1 ->
  parse_claim py (<[path := Holds (JObj (<[k := v]> data))]> fs) path =
    parse_claim py fs path.
Proof.
  intros Hfs Hfield Hlegacy.
  rewrite (parse_claim_holds py fs path data Hfs).
  rewrite (parse_claim_holds py _ path (<[k := v]> data))
    by apply lookup_insert_eq.
  cbn in Hfield. rewrite !not_elem_of_cons in Hfield.
  destruct Hfield as (? & ? & ? & ? & ? & ? & ? & _).
  unfold model_validate.
  now rewrite !(rename_legacy_insert_other data k _ v) by (congruence || assumption).
Qed.

(** ** The workflow the app builds *)

Section App.
Context {W : Type}.
Variable py : PyLib.

Lemma getenv_truthy_set (env : environ) (key : string) :
  getenv_truthy env key = true -> key ∈ dom env.
Proof.
  unfold getenv_truthy. intros H. apply elem_of_dom.
  destruct (env !! key) as [s|]; [eauto|discriminate].
Qed.

(** X12: the workflow of the app has a retriever only together with a
    model; with the box "use AI" unchecked it has no retriever, yet it has
    the OpenAI model whenever the key is set in the environment and the
    client can be built; and without the key it has neither, so that its
    decisions are those of the rule-based fallback. *)
Theorem initialize_workflow_capabilities (env : environ) (clients : Clients W)
    (use_ai verbose : bool) :
  let wf := initialize_workflow env clients use_ai verbose in
  _verbose wf = verbose /\
  (is_Some (policy_retriever wf) -> is_Some (llm wf)) /\
  (use_ai = false ->
   policy_retriever wf = None /\
   llm wf = if getenv_truthy env "OPENAI_API_KEY" then openai_client clients
            else None) /\
  ("OPENAI_API_KEY" ∉ dom env ->
   policy_retriever wf = None /\ llm wf = None /\
   forall (fs : filesystem) (path : string) (claim_info : ClaimInfo) (w : W),
     parse_claim py fs path = Ok claim_info ->
     fst (run py wf fs path w) =
       Ok (make_decision claim_info
             (_generate_fallback_recommendation claim_info ""))).
Proof.
  cbv zeta. unfold initialize_workflow, new_workflow, init.
  assert (Hnokey : "OPENAI_API_KEY" ∉ dom env ->
            getenv_truthy env "OPENAI_API_KEY" = false).
  { intros Hkey. destruct (getenv_truthy env "OPENAI_API_KEY") eqn:Hget;
      [|reflexivity]. now apply getenv_truthy_set in Hget. }
  split; [|split; [|split]].
  - destruct (use_ai && _); [destruct (openai_client clients)|]; reflexivity.
  - destruct (use_ai && _); [destruct (openai_client clients)|]; cbn;
      intros [x Hx]; try discriminate; eauto.
  - intros ->. cbn. now split.
  - intros Hkey. rewrite bool_decide_false by assumption.
    rewrite andb_false_r, (Hnokey Hkey). cbn.
    split; [reflexivity|]. split; [reflexivity|].
    intros fs path claim_info w Hparse.
    destruct (rule_based_run py
                {| policy_retriever := None; llm := None; _verbose := verbose |}
                fs path claim_info w Hparse) as [text Hrun]; [now left|].
    exact Hrun.
Qed.

End App.

(** ** The log of a run, and the queries it retrieves for *)

Section Log.
Context {W : Type}.
Variable py : PyLib.
Implicit Types (st : RunState W) (wf : AutoInsuranceWorkflow W).

Lemma lift_run {A} (a : A) st : (lift (Ok a) : M W A) st = (Ok a, st).
Proof. reflexivity. Qed.

Lemma ctx_get_claim_run (claim_info : ClaimInfo) st :
  store st !! "claim_info" = Some (CtxClaim claim_info) ->
  ctx_get_claim "claim_info" st = (Ok claim_info, st).
Proof. intros H. unfold ctx_get_claim. now rewrite H. Qed.

Lemma traced_stream wf (message : string) st :
  _verbose wf = true ->
  stream (traced wf message st) = stream st ++ [notice message].
Proof. intros Hv. unfold traced. now rewrite Hv. Qed.

Lemma len_app (a b : string) : len (a +:+ b) = len a + len b.
Proof.
  induction a as [|c a IH]; [reflexivity|].
  change (String c a +:+ b) with (String c (a +:+ b)). cbn [len].
  now rewrite IH, Nat.add_assoc.
Qed.

(** The built-in policy text has 921 characters besides the policy
    number. *)
Lemma len_fallback_policy_text (claim_info : ClaimInfo) :
  len (_get_fallback_policy_text claim_info) = 921 + len (policy_number claim_info).
Proof.
  unfold _get_fallback_policy_text. rewrite !len_app.
  match goal with
  | |- len ?head + (_ + len ?tail) = _ =>
      assert (len head = 48) as -> by (vm_compute; reflexivity);
      assert (len tail = 873) as -> by (vm_compute; reflexivity)
  end.
  lia.
Qed.

(** X13: a verbose run of a workflow with no retriever and no model writes
    eleven events, in this order: two for step 1, two for step 2 (five
    queries), two for step 3 (the number of characters of the built-in
    policy text, which is 921 and those of the policy number), two for
    step 4 (the fallback recommendation), two for step 5 and one for
    step 6, the last three about the decision the run returns. *)
Theorem verbose_log_without_capabilities wf (fs : filesystem) (path : string)
    (claim_info : ClaimInfo) (w : W) :
  parse_claim py fs path = Ok claim_info ->
  policy_retriever wf = None ->
  llm wf = None ->
  _verbose wf = true ->
  let text := _get_fallback_policy_text claim_info in
  let rec := _generate_fallback_recommendation claim_info text in
  let decision := make_decision claim_info rec in
  stream (snd (run py wf fs path w)) =
    notice <$>
    [ ">> Loading Claim Info";
      ">> Loaded claim: " +:+ claim_number claim_info;
      ">> Generating Policy Queries";
      ">> Generated 5 queries";
      ">> Retrieving policy sections";
      ">> Retrieved " +:+ pretty (921 + len (policy_number claim_info)) +:+
        " characters of policy text";
      ">> Generating Policy Recommendation";
      ">> Recommendation: " +:+ recommendation_dump_json py rec;
      ">> Finalizing Decision";
      ">> Final Decision: Covered=" +:+
        (if ClaimDecision.covered decision then "True" else "False") +:+
        ", Payout=$" +:+ format_2f (ClaimDecision.recommended_payout decision);
      ">> Decision: " +:+ decision_dump_json py decision ].
Proof.
  intros Hparse Hr Hllm Hv text rec decision.
  unfold run, steps, load_claim_info, generate_policy_queries,
    retrieve_policy_text, generate_recommendation, finalize_decision,
    output_result.
  rewrite Hparse, Hr, Hllm.
  repeat first
    [ progress run_steps
    | rewrite lift_run
    | rewrite (ctx_get_claim_run claim_info)
        by (repeat first [rewrite traced_store | progress cbn [store]];
            rewrite ?lookup_insert_ne by discriminate; apply lookup_insert_eq) ].
  repeat first [rewrite traced_stream by assumption | progress cbn [stream]].
  cbn [app].
  change (length (queries (_generate_fallback_queries claim_info))) with 5.
  assert (">> Generated " +:+ pretty 5 +:+ " queries" = ">> Generated 5 queries")
    as -> by (vm_compute; reflexivity).
  change (evidence_text [] claim_info) with (_get_fallback_policy_text claim_info).
  rewrite len_fallback_policy_text.
  reflexivity.
Qed.

(** The queries step 2 hands on and the world it leaves: those of the
    model's answer, or the fallback queries when the model raises or there
    is none. *)
Lemma step2_of_run wf (fs : filesystem) (path : string) (claim_info : ClaimInfo)
    (w : W) (a : anatomy) :
  parse_claim py fs path = Ok claim_info ->
  anatomy_of py wf fs path {| stream := []; store := ∅; world := w |} a ->
  a_claim a = claim_info /\
  world (a_loaded a) = w /\
  (a_queries a, world (a_queried a)) =
    match llm wf with
    | Some model =>
        let '(answer, w1) :=
          astructured_predict_queries model GENERATE_POLICY_QUERIES_PROMPT
            (claim_dump_json py claim_info) w in
        (match answer with
         | Returns qs => qs
         | Throws _ => _generate_fallback_queries claim_info
         end, w1)
    | None => (_generate_fallback_queries claim_info, w)
    end.
Proof.
  intros Hparse (Hload & Hqs & _).
  unfold load_claim_info in Hload. rewrite Hparse in Hload.
  revert Hload. run_steps. rewrite lift_run. run_steps.
  intros [= Hclaim Hloaded]. split; [congruence|].
  split; [rewrite <- Hloaded; cbn [world]; now rewrite ?traced_world|].
  rewrite <- Hloaded in Hqs.
  unfold generate_policy_queries in Hqs. rewrite <- Hclaim in Hqs.
  revert Hqs. destruct (llm wf) as [model|]; run_steps.
  - destruct (astructured_predict_queries model GENERATE_POLICY_QUERIES_PROMPT
                (claim_dump_json py claim_info) w) as [[qs|e] w1];
      run_steps; intros [= <- <-]; now rewrite !traced_world.
  - intros [= <- <-]. now rewrite !traced_world.
Qed.


(** X3: after a run on a claim that parses, the context holds two keys
    and no other: the claim under "claim_info", and under "policy_text"
    the evidence text of step 3, which is made of the nodes retrieved for
    the queries of step 2 (those of the model, or the fallback queries
    when the model raises or there is none) in the world step 2 left;
    without a retriever it is the built-in policy text with the claim's
    policy number. The loss description, which the fallback queries
    lower-case, is taken to be ASCII text. *)
Theorem context_after_run wf (fs : filesystem) (path : string)
    (claim_info : ClaimInfo) (w : W) :
  parse_claim py fs path = Ok claim_info ->
  ascii_only (loss_description claim_info) = true ->
  let '(qs, w1) :=
    match llm wf with
    | Some model =>
        let '(answer, w1) :=
          astructured_predict_queries model GENERATE_POLICY_QUERIES_PROMPT
            (claim_dump_json py claim_info) w in
        (match answer with
         | Returns qs => qs
         | Throws _ => _generate_fallback_queries claim_info
         end, w1)
    | None => (_generate_fallback_queries claim_info, w)
    end in
  let text :=
    evidence_text (add_docs [] (run_nodes wf qs claim_info w1)) claim_info in
  store (snd (run py wf fs path w)) =
    <["policy_text" := CtxText text]> {["claim_info" := CtxClaim claim_info]} /\
  (policy_retriever wf = None ->
   text = built_in_policy_text (policy_number claim_info)).
Proof.
  intros Hparse _.
  destruct (run_anatomy py wf fs path claim_info
              {| stream := []; store := ∅; world := w |} Hparse)
    as (a & _ & Hanatomy).
  destruct (step2_of_run wf fs path claim_info w a Hparse Hanatomy)
    as (Hclaim & _ & Hstep2).
  destruct Hanatomy
    as (_ & _ & _ & _ & _ & _ & Hsteps & Htext & Hs1 & Hs2 & Hs3 & Hs6).
  rewrite <- Hstep2. cbv zeta. split.
  - unfold run. rewrite Hsteps. cbn [snd].
    rewrite Hs6, Hs3, Hs2, Hs1, Htext, Hclaim. cbn [store].
    now rewrite insert_empty.
  - intros Hnone. unfold run_nodes. now rewrite Hnone.
Qed.

(** X5: a verbose run with a model that raises on its two calls records
    both fallbacks in the stream, each with the text of the exception:
    [e1], which the model raises on the query prompt with the claim in
    the world the run starts in, and [e2], which it raises on the
    recommendation prompt with the claim and the evidence text of
    step 3, the text retrieved for the fallback queries. The loss
    description, which these queries lower-case, is taken to be ASCII
    text. *)
Theorem failing_model_is_traced wf (model : LLM W) (fs : filesystem)
    (path : string) (claim_info : ClaimInfo) (w w1 : W) (e1 e2 : string) :
  parse_claim py fs path = Ok claim_info ->
  ascii_only (loss_description claim_info) = true ->
  llm wf = Some model ->
  _verbose wf = true ->
  astructured_predict_queries model GENERATE_POLICY_QUERIES_PROMPT
    (claim_dump_json py claim_info) w = (Throws e1, w1) ->
  (forall w2 : W,
      fst (astructured_predict_recommendation model POLICY_RECOMMENDATION_PROMPT
             (claim_dump_json py claim_info)
             (evidence_text
                (add_docs []
                   (run_nodes wf (_generate_fallback_queries claim_info)
                      claim_info w1))
                claim_info)
             w2) = Throws e2) ->
  notice (">> LLM query generation failed, using fallback: " +:+ e1)
    ∈ stream (snd (run py wf fs path w)) /\
  notice (">> LLM recommendation failed, using fallback: " +:+ e2)
    ∈ stream (snd (run py wf fs path w)).
Proof.
  intros Hparse _ Hllm Hv Hq Hr.
  destruct (run_anatomy py wf fs path claim_info
              {| stream := []; store := ∅; world := w |} Hparse)
    as (a & _ & Hanatomy).
  destruct (step2_of_run wf fs path claim_info w a Hparse Hanatomy)
    as (Ha & Hw0 & Hstep2).
  rewrite Hllm, Hq in Hstep2. injection Hstep2 as Hqueries Hw1.
  destruct Hanatomy
    as (_ & Hqs & Htext & Hrec & Hfin & Hout & Hsteps & Hevidence
        & Hs1 & Hs2 & Hs3 & _).
  rewrite Hqueries, Hw1, Ha in Hevidence.
  unfold run. rewrite Hsteps. cbn [snd].
  assert (Hctx : store (a_retrieved a) !! "claim_info" = Some (CtxClaim claim_info)).
  { rewrite Hs3, lookup_insert_ne by discriminate.
    rewrite Hs2, Hs1, Ha. apply lookup_insert_eq. }
  pose proof (generate_policy_queries_with_model py wf model (a_claim a)
                (a_loaded a) Hllm) as H1.
  pose proof (generate_recommendation_with_model py wf model (a_text a) claim_info
                (a_retrieved a) Hllm Hctx) as H2.
  rewrite Ha in Hqs. rewrite Ha, Hw0, Hq, Hqs in H1.
  rewrite Hevidence, Hr in H2. rewrite <- Hevidence, Hrec in H2.
  cbn [fst snd] in H1, H2.
  destruct H1 as [_ H1], H2 as [_ H2]. specialize (H1 Hv). specialize (H2 Hv).
  destruct (appends_retrieve_policy_text wf (a_queries a) (a_queried a))
    as (ev3 & H3 & _).
  destruct (appends_generate_recommendation py wf (a_text a) (a_retrieved a))
    as (ev4 & H4 & _).
  destruct (appends_finalize_decision wf (a_recommendation a) (a_recommended a))
    as (ev5 & H5 & _).
  destruct (appends_output_result py wf
              (make_decision (a_claim a) (a_recommendation a)) (a_finalized a))
    as (ev6 & H6 & _).
  rewrite Htext in H3. rewrite Hrec in H4. rewrite Hfin in H5. rewrite Hout in H6.
  cbn [snd] in *.
  rewrite H6, H5. split.
  - rewrite H4, H3, !elem_of_app. tauto.
  - rewrite !elem_of_app. tauto.
Qed.

End Log.

(** ** The properties above on the samples *)

Lemma context_after_run_witness :
  let text :=
    evidence_text
      (add_docs []
         (run_nodes (init (Some flaky_retriever) (Some answering_llm) false None)
            {| queries := ["collision coverage"; "deductible"] |}
            scenario_a_claim tt))
      scenario_a_claim in
  store (snd (run sample_lib
                (init (Some flaky_retriever) (Some answering_llm) false None)
                sample_fs "a.json" tt)) =
    <["policy_text" := CtxText text]> {["claim_info" := CtxClaim scenario_a_claim]} /\
  (policy_retriever (init (Some flaky_retriever) (Some answering_llm) false None)
     = None ->
   text = built_in_policy_text "P-1").
Proof.
  apply (context_after_run sample_lib
           (init (Some flaky_retriever) (Some answering_llm) false None)
           sample_fs "a.json" scenario_a_claim tt).
  - vm_compute. reflexivity.
  - reflexivity.
Defined.

Lemma model_recommendation_decides_witness :
  fst (run sample_lib (init (Some sample_retriever) (Some answering_llm) true None)
         sample_fs "a.json" tt) =
    Ok (make_decision scenario_a_claim answering_recommendation).
Proof.
  apply (model_recommendation_decides sample_lib
           (init (Some sample_retriever) (Some answering_llm) true None)
           answering_llm sample_fs "a.json" scenario_a_claim
           answering_recommendation tt).
  - vm_compute. reflexivity.
  - reflexivity.
  - reflexivity.
Defined.

Lemma failing_model_is_traced_witness :
  notice (">> LLM query generation failed, using fallback: " +:+ "service unavailable")
    ∈ stream (snd (run sample_lib (init (Some flaky_retriever) (Some failing_llm) true None)
                     sample_fs "a.json" tt)) /\
  notice (">> LLM recommendation failed, using fallback: " +:+ "service unavailable")
    ∈ stream (snd (run sample_lib (init (Some flaky_retriever) (Some failing_llm) true None)
                     sample_fs "a.json" tt)).
Proof.
  apply (failing_model_is_traced sample_lib
           (init (Some flaky_retriever) (Some failing_llm) true None)
           failing_llm sample_fs "a.json" scenario_a_claim tt tt
           "service unavailable" "service unavailable").
  - vm_compute. reflexivity.
  - reflexivity.
  - reflexivity.
  - reflexivity.
  - reflexivity.
  - reflexivity.
Defined.

Lemma rule_based_decision_witness :
  exists d,
    fst (run sample_lib (init None (Some failing_llm) false None)
           sample_fs "a.json" tt) = Ok d /\
    ClaimDecision.claim_number d = "C-1" /\
    ClaimDecision.deductible d = 500%float /\
    (PrimFloat.ltb 5000 15000 = false ->
     ClaimDecision.covered d = false /\
     ClaimDecision.recommended_payout d = 0%float) /\
    (PrimFloat.ltb 5000 15000 = true -> PrimFloat.ltb 0 (5000 - 500) = true ->
     ClaimDecision.covered d = true /\
     ClaimDecision.recommended_payout d = (5000 - 500)%float) /\
    (PrimFloat.ltb 5000 15000 = true -> PrimFloat.ltb 0 (5000 - 500) = false ->
     ClaimDecision.recommended_payout d = 0%float).
Proof.
  apply (rule_based_decision sample_lib (init None (Some failing_llm) false None)
           sample_fs "a.json" scenario_a_claim tt).
  - vm_compute. reflexivity.
  - right. exists failing_llm. split; [reflexivity|].
    split; intros; eexists _, _; reflexivity.
Defined.

Lemma claim_number_can_deny_cover_witness :
  let claim_info :=
    {| claim_number := "Not Covered-7"; policy_number := "P-1";
       claimant_name := "John"; date_of_loss := "2025-06-20";
       loss_description := "Collision"; estimated_repair_cost := 300;
       vehicle_details := None |} in
  exists d,
    fst (run sample_lib (init None None false None) more_fs "n.json" tt) = Ok d /\
    ClaimDecision.notes d = Some (fallback_summary claim_info) /\
    contains " is covered." (fallback_summary claim_info) = true /\
    ClaimDecision.covered d =
      negb (contains "not covered" (lower (fallback_summary claim_info))) /\
    (contains "not covered" (lower (claim_number claim_info)) = true ->
     ClaimDecision.covered d = false).
Proof.
  apply (claim_number_can_deny_cover sample_lib (init None None false None)
           more_fs "n.json"
           {| claim_number := "Not Covered-7"; policy_number := "P-1";
              claimant_name := "John"; date_of_loss := "2025-06-20";
              loss_description := "Collision"; estimated_repair_cost := 300;
              vehicle_details := None |} tt).
  - vm_compute. reflexivity.
  - now left.
  - reflexivity.
  - reflexivity.
Defined.

Lemma retrieval_stops_at_first_failure_witness :
  exists st',
    retrieve_policy_text (init (Some flaky_retriever) None true None)
      {| queries := ["Coverage conditions for P-1"] ++
                    "Exclusions for collision" :: ["Policy limits"] |}
      loaded_state =
      (Ok (evidence_text
             (add_docs [] [ {| id_ := "Coverage conditions for P-1";
                               get_content := "text for Coverage conditions for P-1" |} ])
             scenario_a_claim), st') /\
    world st' = tt /\
    (_verbose (init (Some flaky_retriever) None true None) = true ->
     notice (">> Policy retrieval failed: " +:+ "timed out") ∈ stream st').
Proof.
  apply (retrieval_stops_at_first_failure
           (init (Some flaky_retriever) None true None) flaky_retriever
           ["Coverage conditions for P-1"] ["Policy limits"]
           "Exclusions for collision" "timed out" scenario_a_claim
           [ {| id_ := "Coverage conditions for P-1";
                get_content := "text for Coverage conditions for P-1" |} ]
           tt tt loaded_state).
  - reflexivity.
  - vm_compute. reflexivity.
  - vm_compute. reflexivity.
  - vm_compute. reflexivity.
Defined.

Lemma parse_claim_of_renamed_input_witness :
  parse_claim sample_lib
    (<["legacy.json" := Holds (JObj (rename_legacy both_json))]>
       {["legacy.json" := Holds (JObj both_json)]}) "legacy.json" =
    parse_claim sample_lib {["legacy.json" := Holds (JObj both_json)]} "legacy.json" /\
  ((forall legacy, legacy ∈ rename_table.*1 -> both_json !! legacy = None) ->
   rename_legacy both_json = both_json).
Proof.
  apply (parse_claim_of_renamed_input sample_lib
           {["legacy.json" := Holds (JObj both_json)]} "legacy.json" both_json).
  vm_compute. reflexivity.
Defined.

Lemma parse_claim_ignores_other_keys_witness :
  parse_claim sample_lib
    (<["x.json" := Holds (JObj (<["adjuster" := JStr "Kim"]> (claim_json (JNum 5000))))]>
       more_fs) "x.json" =
    parse_claim sample_lib more_fs "x.json".
Proof.
  apply (parse_claim_ignores_other_keys sample_lib more_fs "x.json" "adjuster"
           (JStr "Kim") (claim_json (JNum 5000))).
  - vm_compute. reflexivity.
  - cbn. rewrite !not_elem_of_cons. repeat split; try discriminate.
    apply not_elem_of_nil.
  - cbn. rewrite !not_elem_of_cons. repeat split; try discriminate.
    apply not_elem_of_nil.
Defined.

Lemma verbose_log_without_capabilities_witness :
  let text := _get_fallback_policy_text scenario_a_claim in
  let rec := _generate_fallback_recommendation scenario_a_claim text in
  let decision := make_decision scenario_a_claim rec in
  stream (snd (run sample_lib (init None None true None) sample_fs "a.json" tt)) =
    notice <$>
    [ ">> Loading Claim Info";
      ">> Loaded claim: " +:+ claim_number scenario_a_claim;
      ">> Generating Policy Queries";
      ">> Generated 5 queries";
      ">> Retrieving policy sections";
      ">> Retrieved " +:+ pretty (921 + len (policy_number scenario_a_claim)) +:+
        " characters of policy text";
      ">> Generating Policy Recommendation";
      ">> Recommendation: " +:+ recommendation_dump_json sample_lib rec;
      ">> Finalizing Decision";
      ">> Final Decision: Covered=" +:+
        (if ClaimDecision.covered decision then "True" else "False") +:+
        ", Payout=$" +:+ format_2f (ClaimDecision.recommended_payout decision);
      ">> Decision: " +:+ decision_dump_json sample_lib decision ].
Proof.
  apply (verbose_log_without_capabilities sample_lib (init None None true None)
           sample_fs "a.json" scenario_a_claim tt).
  - vm_compute. reflexivity.
  - reflexivity.
  - reflexivity.
  - reflexivity.
Defined.

